(** * executor.mjs: a periodic single-sided swap executor

    Shallow embedding of [src/executor.mjs] and the properties of its
    trade loop.

    - JavaScript values the script computes with (numbers, the [Number]
      conversion, [Date.prototype.getUTCDate], parsed JSON) are modelled in
      [Module JS].
    - The script's own code ([discord], [swapOnce], [loop], the module
      initialisation) lives in [Module Executor], written in a small
      state / trace / exception monad: the state is the module-level
      bindings, the trace is the sequence of externally visible actions, and
      an exception is a thrown [Error].
    - The answers of the outside world (clock readings, HTTP responses, RPC
      results) are inputs: one record per loop iteration.  [loop ws] is
      the prefix of [while (true)] that consumes the answers [ws]; a
      property of the loop "forever" is a property of [loop ws] for every
      [ws].

    What the model takes from the libraries rather than from the script:
    a thrown value is an [Error] object; a [PublicKey] prints as the
    base-58 string it was made from; whether a library call throws, and
    what it returns, is told by the world. *)

From Stdlib Require Import ZArith String Ascii Bool Lia.
From stdpp Require Import base list strings gmap sorting.

Local Open Scope string_scope.
Local Open Scope Z_scope.

(* ===================================================================== *)
(** * JavaScript values *)
(* ===================================================================== *)

Module JS.

(** ** Numbers

    A JavaScript number is an IEEE-754 binary64 value.  Every finite
    binary64 value is a dyadic rational [m / 2^k]; [Finite m k] is that
    rational.  The representation is kept canonical ([k = 0], or [m] odd),
    so an integer [n] is [Finite n 0].  The sign of zero is not
    represented: no comparison of the script tells [-0] from [+0]. *)

Inductive num : Type :=
| NaN : num
| Infinity (negative : bool) : num
| Finite (m : Z) (k : N) : num.

Definition of_Z (n : Z) : num := Finite n 0.

(** [Number.isFinite(x)] *)
Definition isFinite (x : num) : bool :=
  match x with Finite _ _ => true | _ => false end.

(** [x <= 0] *)
Definition le_zero (x : num) : bool :=
  match x with
  | NaN => false
  | Infinity negative => negative
  | Finite m _ => m <=? 0
  end.

(** [n >= x] for an integer-valued left operand [n]. *)
Definition int_ge (n : Z) (x : num) : bool :=
  match x with
  | NaN => false
  | Infinity negative => negative
  | Finite m k => m <=? n * 2 ^ Z.of_N k
  end.

(** The least integer not below a finite number. *)
Definition ceiling (m : Z) (k : N) : Z := - ((- m) / 2 ^ Z.of_N k).

(** [n + 1] on the values a counter started at [0] takes, the integers
    from [0] to [2^53]: exact below [2^53]; at [2^53] the sum [2^53 + 1]
    is not representable and rounds (ties to even) back to [2^53]. *)
Definition max_exact : Z := 2 ^ 53.

Definition succ (n : Z) : Z := if n <? max_exact then n + 1 else n.

(** *** Rounding a rational to binary64 (round to nearest, ties to even) *)

(** Quotient [n / d] rounded to the nearest integer, ties to even
    ([0 <= n], [0 < d]). *)
Definition round_half_even (n d : Z) : Z :=
  let q := n / d in
  let r := 2 * (n mod d) in
  if r <? d then q
  else if d <? r then q + 1
  else if Z.even q then q else q + 1.

(** Canonical form of [m / 2^k]. *)
Fixpoint strip_pos (fuel : nat) (m : positive) (k : N) : positive * N :=
  match fuel, m, k with
  | S f, xO m', Npos _ => strip_pos f m' (N.pred k)
  | _, _, _ => (m, k)
  end.

Definition canon (m : Z) (k : N) : num :=
  match m with
  | Z0 => Finite 0 0
  | Zpos p =>
      let '(p', k') := strip_pos (N.to_nat k) p k in Finite (Zpos p') k'
  | Zneg p =>
      let '(p', k') := strip_pos (N.to_nat k) p k in Finite (Zneg p') k'
  end.

(** The binary64 value nearest to [n / d], for [0 <= n] and [0 < d]. *)
Definition round_pos (n d : Z) : num :=
  if n =? 0 then Finite 0 0 else
  let e0 := Z.log2 n - Z.log2 d in
  let below := if 0 <=? e0 then n <? d * 2 ^ e0 else n * 2 ^ (- e0) <? d in
  let e := if below then e0 - 1 else e0 in          (* 2^e <= n/d < 2^(e+1) *)
  let p := Z.max (e - 52) (-1074) in                (* unit in the last place *)
  if 0 <=? p then
    let v := round_half_even n (d * 2 ^ p) * 2 ^ p in
    if 2 ^ 1024 <=? v then Infinity false else Finite v 0
  else
    canon (round_half_even (n * 2 ^ (- p)) d) (Z.to_N (- p)).

Definition neg (x : num) : num :=
  match x with
  | NaN => NaN
  | Infinity b => Infinity (negb b)
  | Finite m k => Finite (- m) k
  end.

(** ** [Number(string)]: the StringToNumber conversion

    Strings are sequences of bytes (UTF-8).  The conversion trims white
    space and line terminators, maps the empty string to [0], reads a
    StrNumericLiteral (a signed decimal literal, [Infinity], or an unsigned
    binary / octal / hexadecimal integer literal) and gives [NaN] for
    everything else. *)

Definition code (c : ascii) : Z := Z.of_N (N_of_ascii c).

(** Number of bytes of the white-space character at the head of [s]
    ([0] when there is none). *)
Definition ws_prefix_len (s : string) : nat :=
  match s with
  | String a r =>
      let x := code a in
      if ((9 <=? x) && (x <=? 13)) || (x =? 32) then 1%nat else
      match r with
      | String b r2 =>
          let y := code b in
          if (x =? 194) && (y =? 160) then 2%nat else           (* U+00A0 *)
          match r2 with
          | String c _ =>
              let z := code c in
              if (x =? 225) && (y =? 154) && (z =? 128) then 3%nat   (* U+1680 *)
              else if (x =? 226) && (y =? 128) &&
                      (((128 <=? z) && (z <=? 138))             (* U+2000..U+200A *)
                       || (z =? 168) || (z =? 169)              (* U+2028, U+2029 *)
                       || (z =? 175)) then 3%nat                (* U+202F *)
              else if (x =? 226) && (y =? 129) && (z =? 159) then 3%nat (* U+205F *)
              else if (x =? 227) && (y =? 128) && (z =? 128) then 3%nat (* U+3000 *)
              else if (x =? 239) && (y =? 187) && (z =? 191) then 3%nat (* U+FEFF *)
              else 0%nat
          | EmptyString => 0%nat
          end
      | EmptyString => 0%nat
      end
  | EmptyString => 0%nat
  end.

Fixpoint drop_bytes (n : nat) (s : string) : string :=
  match n, s with
  | S n', String _ r => drop_bytes n' r
  | _, _ => s
  end.

Fixpoint trim_start_fuel (fuel : nat) (s : string) : string :=
  match fuel with
  | O => s
  | S f =>
      match ws_prefix_len s with
      | O => s
      | n => trim_start_fuel f (drop_bytes n s)
      end
  end.

Definition trim_start (s : string) : string :=
  trim_start_fuel (String.length s) s.

Definition is_empty (s : string) : bool :=
  match s with EmptyString => true | String _ _ => false end.

Fixpoint trim_end (s : string) : string :=
  match s with
  | EmptyString => EmptyString
  | String c r => if is_empty (trim_start s) then EmptyString
                  else String c (trim_end r)
  end.

Definition trim (s : string) : string := trim_end (trim_start s).

Definition digit_of (base : Z) (c : ascii) : option Z :=
  let x := code c in
  let v := if (48 <=? x) && (x <=? 57) then x - 48
           else if (97 <=? x) && (x <=? 102) then x - 87
           else if (65 <=? x) && (x <=? 70) then x - 55
           else base in
  if v <? base then Some v else None.

(** Reads the longest run of digits: its value, its length, the rest. *)
Fixpoint take_digits (base : Z) (s : string) (acc cnt : Z) : Z * Z * string :=
  match s with
  | EmptyString => (acc, cnt, s)
  | String c r =>
      match digit_of base c with
      | Some v => take_digits base r (acc * base + v) (cnt + 1)
      | None => (acc, cnt, s)
      end
  end.

(** ExponentPart, optional, up to the end of the string. *)
Definition parse_exponent (s : string) : option Z :=
  match s with
  | EmptyString => Some 0
  | String c r =>
      if (code c =? 101) || (code c =? 69) then
        let '(negative, r') :=
          match r with
          | String s1 r1 =>
              if code s1 =? 43 then (false, r1)
              else if code s1 =? 45 then (true, r1)
              else (false, r)
          | EmptyString => (false, r)
          end in
        let '(v, n, rest) := take_digits 10 r' 0 0 in
        if (0 <? n) && is_empty rest then Some (if negative then - v else v)
        else None
      else None
  end.

(** The value [mant * 10^e10], rounded. *)
Definition decimal_value (mant e10 : Z) : num :=
  if 0 <=? e10 then round_pos (mant * 10 ^ e10) 1
  else round_pos mant (10 ^ (- e10)).

(** StrUnsignedDecimalLiteral *)
Definition parse_unsigned_decimal (s : string) : num :=
  if String.eqb s "Infinity" then Infinity false else
  let '(i, ni, r1) := take_digits 10 s 0 0 in
  match r1 with
  | String dot r2 =>
      if code dot =? 46 then
        let '(f, nf, r3) := take_digits 10 r2 0 0 in
        if (0 <? ni) || (0 <? nf) then
          match parse_exponent r3 with
          | Some e => decimal_value (i * 10 ^ nf + f) (e - nf)
          | None => NaN
          end
        else NaN
      else if 0 <? ni then
        match parse_exponent r1 with
        | Some e => decimal_value i e
        | None => NaN
        end
      else NaN
  | EmptyString => if 0 <? ni then decimal_value i 0 else NaN
  end.

(** NonDecimalIntegerLiteral: [0b], [0o], [0x] prefixes, no sign. *)
Definition parse_non_decimal (s : string) : option num :=
  match s with
  | String z (String p r) =>
      let x := code p in
      let base := if (x =? 120) || (x =? 88) then 16
                  else if (x =? 111) || (x =? 79) then 8
                  else if (x =? 98) || (x =? 66) then 2
                  else 0 in
      if (code z =? 48) && (0 <? base) then
        let '(v, n, rest) := take_digits base r 0 0 in
        Some (if (0 <? n) && is_empty rest then round_pos v 1 else NaN)
      else None
  | _ => None
  end.

Definition Number_of_string (s : string) : num :=
  let t := trim s in
  match t with
  | EmptyString => of_Z 0
  | String c r =>
      match parse_non_decimal t with
      | Some x => x
      | None =>
          if code c =? 43 then parse_unsigned_decimal r
          else if code c =? 45 then neg (parse_unsigned_decimal r)
          else parse_unsigned_decimal t
      end
  end.

(** ** Dates

    A [Date] is its time value: milliseconds since 1970-01-01T00:00:00Z.
    [Day(t) = floor(t / msPerDay)] numbers the UTC calendar days, and
    [getUTCDate] is [DateFromTime(t)], the day of the month (1..31) of that
    calendar day in the proleptic Gregorian calendar. *)

Definition msPerDay : Z := 86400000.

Definition Day (t : Z) : Z := t / msPerDay.

(** Year, month (1..12) and day of the month of day number [z]. *)
Definition civil_of_day (z : Z) : Z * Z * Z :=
  let z := z + 719468 in                    (* days since 0000-03-01 *)
  let era := z / 146097 in                   (* 400-year cycles *)
  let doe := z - era * 146097 in             (* day of the cycle *)
  let yoe := (doe - doe / 1460 + doe / 36524 - doe / 146096) / 365 in
  let doy := doe - (365 * yoe + yoe / 4 - yoe / 100) in  (* from March 1st *)
  let mp := (5 * doy + 2) / 153 in
  let d := doy - (153 * mp + 2) / 5 + 1 in
  let m := if mp <? 10 then mp + 3 else mp - 9 in
  let y := yoe + era * 400 + (if m <=? 2 then 1 else 0) in
  (y, m, d).

Definition getUTCDate (t : Z) : Z := snd (civil_of_day (Day t)).

(** ** Parsed JSON, and the property reads the script performs on it *)

#[warnings="-register-all"]
Inductive json : Type :=
| JNull : json
| JBool (b : bool) : json
| JNumber (x : num) : json
| JString (s : string) : json
| JArray (items : list json) : json
| JObject (fields : list (string * json)) : json.

(** Own property [key] of a parsed object (keys are unique after
    [JSON.parse]). *)
Fixpoint field (key : string) (fields : list (string * json)) : option json :=
  match fields with
  | [] => None
  | (k, v) :: rest => if String.eqb k key then Some v else field key rest
  end.

(** [v.name] for a name that is no array index and no built-in property:
    only objects have it.  [None] is [undefined]. *)
Definition get_named (name : string) (v : json) : option json :=
  match v with
  | JObject fields => field name fields
  | _ => None
  end.

(** [v[0]]: first element of an array, first character of a string,
    property ["0"] of an object. *)
Definition get_index0 (v : json) : option json :=
  match v with
  | JArray (x :: _) => Some x
  | JString (String c _) => Some (JString (String c EmptyString))
  | JObject fields => field "0" fields
  | _ => None
  end.

(** ToBoolean *)
Definition truthy (v : option json) : bool :=
  match v with
  | None | Some JNull => false
  | Some (JBool b) => b
  | Some (JNumber NaN) => false
  | Some (JNumber (Finite m _)) => negb (m =? 0)
  | Some (JNumber (Infinity _)) => true
  | Some (JString s) => negb (is_empty s)
  | Some (JArray _) | Some (JObject _) => true
  end.

(** ** Errors

    A thrown value is an [Error] object: its [name] and its [message]. *)

Record error : Type := Error { name : string; message : string }.

Definition new_Error (msg : string) : error := Error "Error" msg.
Definition TypeError (msg : string) : error := Error "TypeError" msg.

(** [Error.prototype.toString] *)
Definition error_toString (e : error) : string :=
  if is_empty (name e) then message e
  else if is_empty (message e) then name e
  else name e ++ ": " ++ message e.

(** [String.prototype.toUpperCase], on the ASCII letters. *)
Definition upper_char (c : ascii) : ascii :=
  let x := code c in
  if (97 <=? x) && (x <=? 122) then ascii_of_N (Z.to_N (x - 32)) else c.

Fixpoint toUpperCase (s : string) : string :=
  match s with
  | EmptyString => EmptyString
  | String c r => String (upper_char c) (toUpperCase r)
  end.

(** ** [Number(v)] for [v] a string or [undefined], and [Number(v ?? n)] *)

Definition Number (v : option string) : num :=
  match v with
  | Some s => Number_of_string s
  | None => NaN
  end.

Definition Number_or (v : option string) (default : Z) : num :=
  match v with
  | Some s => Number_of_string s
  | None => of_Z default
  end.

(** [String(v ?? n)] for a string [v] is [v] itself. *)
Definition String_or (v : option string) (default : string) : string :=
  match v with
  | Some s => s
  | None => default
  end.

(** [x * c] for a positive integer constant [c]. *)
Definition mul_const (x : num) (c : Z) : num :=
  match x with
  | NaN => NaN
  | Infinity b => Infinity b
  | Finite m k =>
      let r := round_pos (Z.abs m * c) (2 ^ Z.of_N k) in
      if m <? 0 then neg r else r
  end.

(** [!v] for [v] a string or [undefined]. *)
Definition falsy (v : option string) : bool :=
  match v with
  | None => true
  | Some s => is_empty s
  end.

#[global] Arguments getUTCDate : simpl never.
#[global] Arguments Number : simpl never.
#[global] Arguments Number_or : simpl never.
#[global] Arguments Number_of_string : simpl never.
#[global] Arguments mul_const : simpl never.
#[global] Arguments int_ge : simpl never.
#[global] Arguments succ : simpl never.
#[global] Arguments toUpperCase : simpl never.

End JS.

(* ===================================================================== *)
(** * The script *)
(* ===================================================================== *)

Module Executor.
Import JS.

(** ** Configuration: [process.env] and the ten destructured constants *)

Record Env : Type := {
  RPC_URL : option string;
  PRIVATE_KEY_B58 : option string;
  TOKEN_MINT : option string;
  QUOTE_MINT : option string;
  SIDE : option string;
  AMOUNT_IN_BASE_UNITS : option string;
  MAX_SLIPPAGE_BPS : option string;
  INTERVAL_SECONDS : option string;
  DAILY_BUDGET_TRADES : option string;
  DISCORD_WEBHOOK_URL : option string;
}.

(** [const { RPC_URL, ... } = process.env] *)
Definition destructure (process_env : gmap string string) : Env := {|
  RPC_URL := process_env !! "RPC_URL";
  PRIVATE_KEY_B58 := process_env !! "PRIVATE_KEY_B58";
  TOKEN_MINT := process_env !! "TOKEN_MINT";
  QUOTE_MINT := process_env !! "QUOTE_MINT";
  SIDE := process_env !! "SIDE";
  AMOUNT_IN_BASE_UNITS := process_env !! "AMOUNT_IN_BASE_UNITS";
  MAX_SLIPPAGE_BPS := process_env !! "MAX_SLIPPAGE_BPS";
  INTERVAL_SECONDS := process_env !! "INTERVAL_SECONDS";
  DAILY_BUDGET_TRADES := process_env !! "DAILY_BUDGET_TRADES";
  DISCORD_WEBHOOK_URL := process_env !! "DISCORD_WEBHOOK_URL";
|}.

(** The test of line 25. *)
Definition missing_required (e : Env) : bool :=
  falsy (RPC_URL e) || falsy (PRIVATE_KEY_B58 e) || falsy (TOKEN_MINT e)
  || falsy (QUOTE_MINT e) || falsy (SIDE e).

(** ** Objects of [@solana/web3.js]

    A [PublicKey] is modelled by its base-58 text: for a string the
    constructor accepts, [toBase58()] gives that string back. *)

Record PublicKey : Type := { toBase58 : string }.
Record Keypair : Type := { publicKey : PublicKey }.
Record Connection : Type := { endpoint : string; commitment : string }.
Record Transaction : Type := {
  tx_message : string;
  tx_signers : list PublicKey;
}.

(** ** Module-level bindings *)

Record Globals : Type := {
  env : Env;
  connection : Connection;
  wallet : Keypair;
  TOKEN : PublicKey;
  QUOTE : PublicKey;
  INPUT : PublicKey;
  OUTPUT : PublicKey;
  tradesToday : Z;
  lastDay : Z;
}.

Definition set_tradesToday (n : Z) (g : Globals) : Globals :=
  {| env := env g; connection := connection g; wallet := wallet g;
     TOKEN := TOKEN g; QUOTE := QUOTE g; INPUT := INPUT g; OUTPUT := OUTPUT g;
     tradesToday := n; lastDay := lastDay g |}.

Definition set_lastDay (d : Z) (g : Globals) : Globals :=
  {| env := env g; connection := connection g; wallet := wallet g;
     TOKEN := TOKEN g; QUOTE := QUOTE g; INPUT := INPUT g; OUTPUT := OUTPUT g;
     tradesToday := tradesToday g; lastDay := d |}.

(** ** Externally visible actions *)

(** The four messages handed to [discord]. *)
Inductive Notification : Type :=
| Online (side : string) (walletKey : string)
    (* `🔁 Executor online for ${SIDE} | wallet ...` *)
| LimitReached
    (* '⏸ Daily trade limit reached. Waiting for next UTC day.' *)
| Executed (SIDE_upper inMint outMint : string) (amount : num) (sig : string)
    (* `✅ Executed ${SIDE.toUpperCase()} | inputMint=... → outputMint=...` *)
| SwapError (text : string).
    (* `⚠️ Swap error: ${e.message || e}` *)

Inductive LogLine : Type :=
| LogWallet (walletKey : string) (lamports : Z)
| LogSwapOk (time : Z) (sig : string).

Inductive Event : Type :=
| EvConsoleError (e : error)
| EvConsoleErrorText (s : string)
| EvConsoleLog (l : LogLine)
| EvExit (code : Z)
| EvGetBalance (key : string)
| EvQuote (inputMint outputMint : string) (amount : num) (slippageBps : string)
| EvBuild (quoteResponse : option json) (userPublicKey : string)
| EvSign (signer : PublicKey)
| EvSend (tx : Transaction)
| EvConfirm (sig : string)
| EvWebhook (url : string) (msg : Notification)
| EvSleep (ms : num).

(** ** Completions and the monad of the script *)

Inductive completion (A : Type) : Type :=
| Normal (a : A)
| Throw (e : error).
Arguments Normal {A} a.
Arguments Throw {A} e.

Definition M (A : Type) : Type :=
  Globals -> list Event * Globals * completion A.

#[global] Instance M_ret : MRet M := fun A a g => ([], g, Normal a).

#[global] Instance M_bind : MBind M := fun A B f m g =>
  match m g with
  | (t, g', Normal a) =>
      let '(t', g'', r) := f a g' in ((t ++ t')%list, g'', r)
  | (t, g', Throw e) => (t, g', Throw e)
  end.

#[global] Instance M_throw : MThrow error M := fun A e g => ([], g, Throw e).

Definition gets {A} (f : Globals -> A) : M A := fun g => ([], g, Normal (f g)).

Definition modify (f : Globals -> Globals) : M unit :=
  fun g => ([], f g, Normal tt).

(** An action on the outside world: it is recorded, and completes the way
    the world decides. *)
Definition perform {A} (ev : Event) (outcome : completion A) : M A :=
  fun g => ([ev], g, outcome).

(** [await p] / evaluation of a call whose completion the world decides,
    with nothing to record. *)
Definition complete {A} (outcome : completion A) : M A :=
  fun g => ([], g, outcome).

Definition try_catch {A} (body : M A) (handler : error -> M A) : M A :=
  fun g =>
    match body g with
    | (t, g', Throw e) =>
        let '(t', g'', r) := handler e g' in ((t ++ t')%list, g'', r)
    | done => done
    end.

(** [sleep] (line 37): the promise resolves after the delay. *)
Definition sleep (ms : num) : M unit := perform (EvSleep ms) (Normal tt).

(** ** HTTP *)

Record Response : Type := {
  ok : bool;
  statusText : string;
  json_body : completion json;       (* what [await res.json()] gives *)
}.

(** ** [discord] (lines 39-48) *)

Definition discord (posted : completion Response) (msg : Notification)
  : M unit :=
  e ← gets env;
  match DISCORD_WEBHOOK_URL e with
  | None => mret tt
  | Some url =>
      if is_empty url then mret tt
      else
        try_catch
          (perform (EvWebhook url msg) posted ;; mret tt)
          (fun _ => mret tt)
  end.

(** ** [swapOnce] (lines 50-92) *)

(** What the outside world answers during one call of [swapOnce]. *)
Record SwapWorld : Type := {
  quote_response : completion Response;                  (* line 64 *)
  swap_response : completion Response;                   (* line 71 *)
  deserialized : option json -> completion Transaction;  (* line 84 *)
  signing : completion unit;                             (* line 87 *)
  sent : completion string;                              (* line 88 *)
  confirmation : completion (option string);             (* line 89; the
      resolved status ([value.err]) is not inspected by the script *)
}.

Record SwapResult : Type := {
  sig : string;
  inMint : string;
  outMint : string;
  amount : num;
}.

(** [quoteJson?.data?.[0]] *)
Definition first_route (quoteJson : json) : option json :=
  match quoteJson with
  | JNull => None
  | _ =>
      match get_named "data" quoteJson with
      | None | Some JNull => None
      | Some data => get_index0 data
      end
  end.

(** [const { swapTransaction } = v] *)
Definition take_swapTransaction (v : json) : M (option json) :=
  match v with
  | JNull =>
      mthrow
        (TypeError "Cannot destructure property 'swapTransaction' of null")
  | _ => mret (get_named "swapTransaction" v)
  end.

Definition sign (signer : Keypair) (tx : Transaction) : Transaction :=
  {| tx_message := tx_message tx;
     tx_signers := publicKey signer :: tx_signers tx |}.

Definition swapOnce (w : SwapWorld) : M SwapResult :=
  e ← gets env;
  let amount := Number (AMOUNT_IN_BASE_UNITS e) in
  if negb (isFinite amount) || le_zero amount then
    mthrow (new_Error
      "AMOUNT_IN_BASE_UNITS must be a positive integer (base units).")
  else
    (* 1) Get quote *)
    input ← gets INPUT;
    output ← gets OUTPUT;
    quoteRes ← perform
      (EvQuote (toBase58 input) (toBase58 output) amount
               (String_or (MAX_SLIPPAGE_BPS e) "50"))
      (quote_response w);
    if negb (ok quoteRes) then
      mthrow (new_Error ("Quote error: " ++ statusText quoteRes))
    else
      quoteJson ← complete (json_body quoteRes);
      let route := first_route quoteJson in
      if negb (truthy route) then
        mthrow (new_Error "No route found (insufficient liquidity?)")
      else
        (* 2) Build swap tx *)
        signer ← gets wallet;
        swapRes ← perform
          (EvBuild route (toBase58 (publicKey signer)))
          (swap_response w);
        if negb (ok swapRes) then
          mthrow (new_Error ("Swap build error: " ++ statusText swapRes))
        else
          swapJson ← complete (json_body swapRes);
          swapTransaction ← take_swapTransaction swapJson;
          tx ← complete (deserialized w swapTransaction);
          (* 3) Sign & send *)
          perform (EvSign (publicKey signer)) (signing w) ;;
          sig ← perform (EvSend (sign signer tx)) (sent w);
          perform (EvConfirm sig) (confirmation w) ;;
          mret {| sig := sig; inMint := toBase58 input;
                  outMint := toBase58 output; amount := amount |}.

(** ** [loop] (lines 97-122) *)

(** What the outside world answers during one iteration. *)
Record IterWorld : Type := {
  now : Z;                            (* [new Date()], line 100 *)
  swap : SwapWorld;
  posted : completion Response;       (* webhook request of the try block *)
  posted_error : completion Response; (* webhook request of the catch block *)
  log_time : Z;                       (* [new Date()], line 114 *)
}.

(** [Number(DAILY_BUDGET_TRADES ?? 100)] *)
Definition daily_cap (e : Env) : num := Number_or (DAILY_BUDGET_TRADES e) 100.

(** [Number(INTERVAL_SECONDS ?? 1200)] *)
Definition interval_seconds (e : Env) : num :=
  Number_or (INTERVAL_SECONDS e) 1200.

(** [SIDE.toUpperCase()] *)
Definition SIDE_toUpperCase (e : Env) : M string :=
  match SIDE e with
  | Some s => mret (toUpperCase s)
  | None =>
      mthrow (TypeError
        "Cannot read properties of undefined (reading 'toUpperCase')")
  end.

(** The [try] block, lines 100-115. *)
Definition attempt (w : IterWorld) : M unit :=
  let day := getUTCDate (now w) in
  last ← gets lastDay;
  (if negb (day =? last)
   then modify (set_lastDay day) ;; modify (set_tradesToday 0)
   else mret tt) ;;
  count ← gets tradesToday;
  e ← gets env;
  if int_ge count (daily_cap e) then
    discord (posted w) LimitReached
  else
    r ← swapOnce (swap w);
    modify (fun g => set_tradesToday (succ (tradesToday g)) g) ;;
    side ← SIDE_toUpperCase e;
    discord (posted w)
      (Executed side (inMint r) (outMint r) (amount r) (sig r)) ;;
    perform (EvConsoleLog (LogSwapOk (log_time w) (sig r))) (Normal tt).

(** [e.message || e], interpolated in a template literal. *)
Definition error_text (e : error) : string :=
  if is_empty (message e) then error_toString e else message e.

(** The [catch] block, lines 116-119. *)
Definition handler (w : IterWorld) (e : error) : M unit :=
  perform (EvConsoleError e) (Normal tt) ;;
  discord (posted_error w) (SwapError (error_text e)).

(** One turn of [while (true)]. *)
Definition loop_body (w : IterWorld) : M unit :=
  try_catch (attempt w) (handler w) ;;
  e ← gets env;
  sleep (mul_const (interval_seconds e) 1000).

(** The first [length ws] turns of [while (true)], one per answer of the
    world; an exception leaving a turn ends the loop. *)
Fixpoint loop (ws : list IterWorld) : M unit :=
  match ws with
  | [] => mret tt
  | w :: rest => loop_body w ;; loop rest
  end.

(** ** Module initialisation and the entry point (lines 25-35, 94-95,
    124-129) *)

Record InitWorld : Type := {
  connection_rejected : option error;   (* [new Connection] throws *)
  wallet_made : completion Keypair;     (* [Keypair.fromSecretKey(..)] *)
  token_rejected : option error;        (* [new PublicKey(TOKEN_MINT)] throws *)
  quote_rejected : option error;        (* [new PublicKey(QUOTE_MINT)] throws *)
  start_time : Z;                       (* [new Date()], line 95 *)
  balance : completion Z;               (* [getBalance], line 125 *)
  posted_online : completion Response;  (* webhook request of line 127 *)
}.

#[global] Instance completion_ret : MRet completion := fun A a => Normal a.

#[global] Instance completion_bind : MBind completion := fun A B f m =>
  match m with
  | Normal a => f a
  | Throw e => Throw e
  end.

Definition construct {A} (rejected : option error) (v : option string)
    (make : string -> A) : completion A :=
  match rejected, v with
  | Some e, _ => Throw e
  | None, Some s => Normal (make s)
  | None, None => Throw (TypeError "undefined")
  end.

(** [SIDE === 'sell'] *)
Definition is_sell (e : Env) : bool :=
  match SIDE e with
  | Some s => String.eqb s "sell"
  | None => false
  end.

(** Lines 30-35 and 94-95. *)
Definition init (e : Env) (iw : InitWorld) : completion Globals :=
  conn ← construct (connection_rejected iw) (RPC_URL e)
           (fun url => {| endpoint := url; commitment := "confirmed" |});
  kp ← wallet_made iw;
  token ← construct (token_rejected iw) (TOKEN_MINT e)
           (fun s => {| toBase58 := s |});
  quote ← construct (quote_rejected iw) (QUOTE_MINT e)
           (fun s => {| toBase58 := s |});
  mret {| env := e; connection := conn; wallet := kp;
          TOKEN := token; QUOTE := quote;
          INPUT := if is_sell e then token else quote;
          OUTPUT := if is_sell e then quote else token;
          tradesToday := 0;
          lastDay := getUTCDate (start_time iw) |}.

(** Lines 124-127. *)
Definition announce (iw : InitWorld) : M unit :=
  signer ← gets wallet;
  e ← gets env;
  let key := toBase58 (publicKey signer) in
  bal ← perform (EvGetBalance key) (balance iw);
  perform (EvConsoleLog (LogWallet key bal)) (Normal tt) ;;
  discord (posted_online iw) (Online (String_or (SIDE e) "undefined") key).

Inductive Status : Type :=
| Exited (code : Z)          (* [process.exit(code)] *)
| Crashed (e : error)        (* uncaught exception or rejection *)
| Looping (g : Globals).     (* still inside [while (true)] *)

(** The whole script, followed for [length ws] turns of its loop. *)
Definition main (process_env : gmap string string) (iw : InitWorld)
    (ws : list IterWorld) : list Event * Status :=
  let e := destructure process_env in
  if missing_required e then
    ([EvConsoleErrorText "Missing required env vars."; EvExit 1], Exited 1)
  else
    match init e iw with
    | Throw err => ([], Crashed err)
    | Normal g =>
        match (announce iw ;; loop ws) g with
        | (t, g', Normal _) => (t, Looping g')
        | (t, _, Throw err) => (t, Crashed err)
        end
    end.

End Executor.

(* ===================================================================== *)
(** * Observations on runs *)
(* ===================================================================== *)

Import JS Executor.

(** The state at the cap check of an iteration: the day test of line 102
    applied to the state the iteration starts from. *)
Definition day_check (w : IterWorld) (g : Globals) : Globals :=
  if getUTCDate (now w) =? lastDay g then g
  else set_tradesToday 0 (set_lastDay (getUTCDate (now w)) g).

(** [tradesToday >= Number(DAILY_BUDGET_TRADES ?? 100)] *)
Definition capped (g : Globals) : bool :=
  int_ge (tradesToday g) (daily_cap (env g)).

(** What a call [discord(msg)] does to the outside world. *)
Definition webhook_events (g : Globals) (msg : Notification) : list Event :=
  match DISCORD_WEBHOOK_URL (env g) with
  | Some url => if is_empty url then [] else [EvWebhook url msg]
  | None => []
  end.

Definition sleep_event (g : Globals) : Event :=
  EvSleep (mul_const (interval_seconds (env g)) 1000).

(** The five steps of the external call chain. *)
Inductive Step : Type := Quote | Build | Sign | Submit | Confirm.

#[global] Instance Step_eq_dec : EqDecision Step.
Proof. solve_decision. Defined.

Definition step_of (ev : Event) : option Step :=
  match ev with
  | EvQuote _ _ _ _ => Some Quote
  | EvBuild _ _ => Some Build
  | EvSign _ => Some Sign
  | EvSend _ => Some Submit
  | EvConfirm _ => Some Confirm
  | _ => None
  end.

(** The chain steps a trace goes through, in order. *)
Definition steps (t : list Event) : list Step := omap step_of t.

Definition is_sleep (ev : Event) : bool :=
  match ev with EvSleep _ => true | _ => false end.

(** Number of swap attempts that reached the quote service. *)
Definition attempts (t : list Event) : nat :=
  length (filter (fun s => s = Quote) (steps t)).

Definition sleeps (t : list Event) : nat := length (filter is_sleep t).

Definition is_normal {A} (c : completion A) : bool :=
  match c with Normal _ => true | Throw _ => false end.

(** An iteration with trace [t] executed a swap: it reached the
    confirmation call, and that call resolved. *)
Definition swap_executed (w : IterWorld) (t : list Event) : bool :=
  bool_decide (Confirm ∈ steps t) && is_normal (confirmation (swap w)).

Definition trace_of {A} (r : list Event * Globals * completion A)
  : list Event := r.1.1.

Definition state_of {A} (r : list Event * Globals * completion A)
  : Globals := r.1.2.

(** Number of swaps executed by the iterations of [loop ws] from [g]
    whose clock reading (line 100) falls on UTC day [d]. *)
Fixpoint executed_on (d : Z) (ws : list IterWorld) (g : Globals) : Z :=
  match ws with
  | [] => 0
  | w :: rest =>
      let r := loop_body w g in
      (if (Day (now w) =? d) && swap_executed w (trace_of r) then 1 else 0)
      + executed_on d rest (state_of r)
  end.

(** Number of swaps executed by the iterations of [loop ws] from [g]
    whose "Swap ok" line (line 114) is stamped on UTC day [d]. *)
Fixpoint logged_on (d : Z) (ws : list IterWorld) (g : Globals) : Z :=
  match ws with
  | [] => 0
  | w :: rest =>
      let r := loop_body w g in
      (if (Day (log_time w) =? d) && swap_executed w (trace_of r)
       then 1 else 0)
      + logged_on d rest (state_of r)
  end.

(** [n > x] *)
Definition int_gt (n : Z) (x : num) : bool :=
  match x with
  | NaN => false
  | Infinity negative => negative
  | Finite m k => m <? n * 2 ^ Z.of_N k
  end.

(** The configuration is one the script starts with (line 25). *)
Definition started (g : Globals) : Prop := missing_required (env g) = false.

Definition outcome_of {A} (r : list Event * Globals * completion A)
  : completion A := r.2.

(** The error of line 53. *)
Definition amount_error : error :=
  new_Error "AMOUNT_IN_BASE_UNITS must be a positive integer (base units).".

(** The error of [SIDE.toUpperCase()] on an undefined [SIDE]. *)
Definition side_error : error :=
  TypeError "Cannot read properties of undefined (reading 'toUpperCase')".

(** [g'] differs from [g] in [tradesToday] and [lastDay] at most. *)
Definition same_constants (g g' : Globals) : Prop :=
  g' = set_lastDay (lastDay g') (set_tradesToday (tradesToday g') g).

(** The mints named by a quote request or by an execution notice. *)
Definition direction (ev : Event) : option (string * string) :=
  match ev with
  | EvQuote i o _ _ => Some (i, o)
  | EvWebhook _ (Executed _ i o _ _) => Some (i, o)
  | _ => None
  end.

Definition directed (i o : string) (ev : Event) : Prop :=
  match direction ev with
  | Some d => d = (i, o)
  | None => True
  end.

(** [AMOUNT_IN_BASE_UNITS] is unset, is not numeric, or is not strictly
    positive. *)
Definition amount_invalid (e : Env) : Prop :=
  AMOUNT_IN_BASE_UNITS e = None
  \/ Number (AMOUNT_IN_BASE_UNITS e) = NaN
  \/ le_zero (Number (AMOUNT_IN_BASE_UNITS e)) = true.

(** The ranks of the steps in the chain, and what the world must have
    answered for a step to succeed. *)
Definition rank (s : Step) : nat :=
  match s with
  | Quote => 0 | Build => 1 | Sign => 2 | Submit => 3 | Confirm => 4
  end.

Definition chain : list Step := [Quote; Build; Sign; Submit; Confirm].

Definition step_succeeded (w : SwapWorld) (s : Step) : bool :=
  match s with
  | Quote =>
      match quote_response w with
      | Normal res =>
          ok res &&
          match json_body res with
          | Normal j => truthy (first_route j)
          | Throw _ => false
          end
      | Throw _ => false
      end
  | Build =>
      match swap_response w with
      | Normal res =>
          ok res &&
          match json_body res with
          | Normal JNull => false
          | Normal j =>
              is_normal (deserialized w (get_named "swapTransaction" j))
          | Throw _ => false
          end
      | Throw _ => false
      end
  | Sign => is_normal (signing w)
  | Submit => is_normal (sent w)
  | Confirm => is_normal (confirmation w)
  end.

(** The amount passes the test of line 52. *)
Definition amount_valid (e : Env) : Prop :=
  negb (isFinite (Number (AMOUNT_IN_BASE_UNITS e)))
  || le_zero (Number (AMOUNT_IN_BASE_UNITS e)) = false.

(** The world makes some step of the chain fail. *)
Definition swap_fails (w : SwapWorld) : Prop :=
  exists s : Step, step_succeeded w s = false.

(** What an iteration does when its call of [swapOnce] rejects the
    amount: the error is logged and reported, then the iteration sleeps. *)
Definition amount_error_round (g : Globals) : list Event :=
  EvConsoleError amount_error
  :: (webhook_events g (SwapError (message amount_error))
      ++ [sleep_event g])%list.

(** The state carries the cap [m / 2^k] and a counter that is not
    negative. *)
Definition cap_is (m : Z) (k : N) (g : Globals) : Prop :=
  daily_cap (env g) = Finite m k /\ 0 <= tradesToday g.

(** ** Further observations *)

(** The five variables tested at line 25. *)
Definition required_vars : list string :=
  ["RPC_URL"; "PRIVATE_KEY_B58"; "TOKEN_MINT"; "QUOTE_MINT"; "SIDE"].

(** What the script does when that test fails (lines 26-27). *)
Definition exit_trace : list Event :=
  [EvConsoleErrorText "Missing required env vars."; EvExit 1].

(** [DISCORD_WEBHOOK_URL] passes the test of line 40. *)
Definition webhook_configured (g : Globals) : bool :=
  negb (falsy (DISCORD_WEBHOOK_URL (env g))).

Definition count (p : Event -> bool) (t : list Event) : nat :=
  length (filter p t).

(** Number of webhook requests of a trace whose message satisfies [q]. *)
Definition notice_count (q : Notification -> bool) (t : list Event) : nat :=
  count (fun ev => match ev with EvWebhook _ msg => q msg | _ => false end) t.

Definition is_limit_notice (msg : Notification) : bool :=
  match msg with LimitReached => true | _ => false end.

Definition is_executed_notice (msg : Notification) : bool :=
  match msg with Executed _ _ _ _ _ => true | _ => false end.

(** Number of "Swap ok" lines (line 114) of a trace. *)
Definition swaps_logged (t : list Event) : nat :=
  count (fun ev =>
           match ev with EvConsoleLog (LogSwapOk _ _) => true | _ => false end)
        t.

(** Number of swaps executed by the iterations of [loop ws] from [g]. *)
Fixpoint executed_total (ws : list IterWorld) (g : Globals) : nat :=
  match ws with
  | [] => 0%nat
  | w :: rest =>
      let r := loop_body w g in
      ((if swap_executed w (trace_of r) then 1 else 0)
       + executed_total rest (state_of r))%nat
  end.

(** The message an iteration hands to [discord]. *)
Definition notice (w : IterWorld) (g : Globals) : Notification :=
  if capped (day_check w g) then LimitReached
  else
    match outcome_of (swapOnce (swap w) (day_check w g)), SIDE (env g) with
    | Normal r, Some s =>
        Executed (toUpperCase s) (inMint r) (outMint r) (amount r) (sig r)
    | Normal _, None => SwapError (error_text side_error)
    | Throw e, _ => SwapError (error_text e)
    end.

(** The iteration world [w] with another answer to the confirmation call. *)
Definition with_confirmation (c : completion (option string)) (w : IterWorld)
  : IterWorld :=
  {| now := now w;
     swap := {| quote_response := quote_response (swap w);
                swap_response := swap_response (swap w);
                deserialized := deserialized (swap w);
                signing := signing (swap w);
                sent := sent (swap w);
                confirmation := c |};
     posted := posted w;
     posted_error := posted_error w;
     log_time := log_time w |}.

(** The parameters the script puts in its requests: the configured amount,
    valid, and slippage in a quote request; the wallet in a build request,
    in a signature and among the signers of a submitted transaction. *)
Definition request_ok (g : Globals) (ev : Event) : Prop :=
  match ev with
  | EvQuote _ _ a s =>
      a = Number (AMOUNT_IN_BASE_UNITS (env g))
      /\ isFinite a = true /\ le_zero a = false
      /\ s = String_or (MAX_SLIPPAGE_BPS (env g)) "50"
  | EvBuild _ key => key = toBase58 (publicKey (wallet g))
  | EvSign signer => signer = publicKey (wallet g)
  | EvSend tx => publicKey (wallet g) ∈ tx_signers tx
  | _ => True
  end.

(** The error of line 68. *)
Definition no_route_error : error :=
  new_Error "No route found (insufficient liquidity?)".

(** The quote request of [swapOnce] in state [g]. *)
Definition quote_event (g : Globals) : Event :=
  EvQuote (toBase58 (INPUT g)) (toBase58 (OUTPUT g))
    (Number (AMOUNT_IN_BASE_UNITS (env g)))
    (String_or (MAX_SLIPPAGE_BPS (env g)) "50").

(** What the entry point does before the loop, when the balance resolves
    (lines 125-127). *)
Definition announce_trace (g : Globals) (bal : Z) : list Event :=
  let key := toBase58 (publicKey (wallet g)) in
  EvGetBalance key
  :: EvConsoleLog (LogWallet key bal)
  :: webhook_events g (Online (String_or (SIDE (env g)) "undefined") key).

(** ** Sample inputs *)

Definition sample_process_env : gmap string string :=
  <["RPC_URL" := "https://rpc.example"]>
  (<["PRIVATE_KEY_B58" := "3yZe7d"]>
  (<["TOKEN_MINT" := "TokenMint"]>
  (<["QUOTE_MINT" := "QuoteMint"]>
  (<["SIDE" := "sell"]>
  (<["AMOUNT_IN_BASE_UNITS" := "1000"]>
  (<["DISCORD_WEBHOOK_URL" := "https://hook.example"]> ∅)))))).

Definition sample_response (body : json) : completion Response :=
  Normal {| ok := true; statusText := "OK"; json_body := Normal body |}.

Definition sample_init : InitWorld := {|
  connection_rejected := None;
  wallet_made := Normal {| publicKey := {| toBase58 := "Wallet" |} |};
  token_rejected := None;
  quote_rejected := None;
  start_time := 1705312800000;                  (* 2024-01-15T10:00:00Z *)
  balance := Normal 5000000000;
  posted_online := sample_response JNull;
|}.

(** A world in which every step of the swap succeeds. *)
Definition good_swap : SwapWorld := {|
  quote_response :=
    sample_response
      (JObject [("data", JArray [JObject [("outAmount", JString "42")]])]);
  swap_response :=
    sample_response (JObject [("swapTransaction", JString "AQID")]);
  deserialized :=
    fun _ => Normal {| tx_message := "swap"; tx_signers := [] |};
  signing := Normal tt;
  sent := Normal "5sig";
  confirmation := Normal None;
|}.

(** A world in which the quote service cannot be reached. *)
Definition failing_swap : SwapWorld := {|
  quote_response := Throw (Error "FetchError" "network unreachable");
  swap_response := Throw (Error "FetchError" "network unreachable");
  deserialized := fun _ => Throw (new_Error "unreachable");
  signing := Normal tt;
  sent := Throw (new_Error "unreachable");
  confirmation := Throw (new_Error "unreachable");
|}.

Definition iteration_at (t : Z) (sw : SwapWorld) : IterWorld := {|
  now := t;
  swap := sw;
  posted := sample_response JNull;
  posted_error := Throw (Error "FetchError" "webhook unreachable");
  log_time := t + 2000;
|}.

(** The module-level bindings after initialisation with the sample
    environment, changed by [extra]. *)
Definition sample_globals (extra : gmap string string -> gmap string string)
  : Globals :=
  match init (destructure (extra sample_process_env)) sample_init with
  | Normal g => g
  | Throw _ =>
      {| env := destructure ∅;
         connection := {| endpoint := ""; commitment := "" |};
         wallet := {| publicKey := {| toBase58 := "" |} |};
         TOKEN := {| toBase58 := "" |}; QUOTE := {| toBase58 := "" |};
         INPUT := {| toBase58 := "" |}; OUTPUT := {| toBase58 := "" |};
         tradesToday := 0; lastDay := 0 |}
  end.

(* ===================================================================== *)
(** * Building blocks *)
(* ===================================================================== *)

Ltac unfold_M :=
  unfold mbind, M_bind, mret, M_ret, mthrow, M_throw, gets, modify,
    perform, complete, try_catch in *.

(** Case analysis on everything the world answers during [swapOnce]. *)
Ltac swap_cases :=
  unfold swapOnce, take_swapTransaction; unfold_M;
  repeat (case_match; simplify_eq/=);
  repeat match goal with
         | H : negb _ = false |- _ => apply negb_false_iff in H
         | H : negb _ = true |- _ => apply negb_true_iff in H
         end.

(** ** The JavaScript model on known values *)

Example Number_decimal :
  Number_of_string "1000" = Finite 1000 0
  /\ Number_of_string " 100 " = Finite 100 0
  /\ Number_of_string "2.5" = Finite 5 1
  /\ Number_of_string "-12.50e1" = Finite (-125) 0
  /\ Number_of_string ".5" = Finite 1 1
  /\ Number_of_string "5." = Finite 5 0
  /\ Number_of_string "0x1F" = Finite 31 0
  /\ Number_of_string "" = Finite 0 0.
Proof. repeat split. Qed.

Example Number_not_numeric :
  Number_of_string "abc" = NaN
  /\ Number_of_string "12 tokens" = NaN
  /\ Number_of_string "1e" = NaN
  /\ Number_of_string "." = NaN
  /\ Number_of_string "-0x1F" = NaN
  /\ Number None = NaN.
Proof. repeat split. Qed.

Example Number_rounding :
  Number_of_string "0.1" = Finite 3602879701896397 55
  /\ Number_of_string "9007199254740993" = Finite 9007199254740992 0
  /\ Number_of_string "1e23" = Finite 99999999999999991611392 0
  /\ Number_of_string "5e-324" = Finite 1 1074
  /\ Number_of_string "2e-324" = Finite 0 0
  /\ Number_of_string "1e999" = Infinity false
  /\ Number_of_string "-Infinity" = Infinity true.
Proof. repeat split; by vm_compute. Qed.

Example succ_saturates :
  succ 0 = 1 /\ succ (max_exact - 1) = max_exact /\ succ max_exact = max_exact.
Proof. repeat split. Qed.

Example civil_of_day_known :
  civil_of_day 0 = (1970, 1, 1)
  /\ civil_of_day (-1) = (1969, 12, 31)
  /\ civil_of_day 11016 = (2000, 2, 29)
  /\ civil_of_day 19782 = (2024, 2, 29)
  /\ civil_of_day 19783 = (2024, 3, 1)
  /\ getUTCDate 1705312800000 = 15.
Proof. repeat split. Qed.

(** ** [discord] and [swapOnce] *)

Lemma discord_run posted msg g :
  discord posted msg g = (webhook_events g msg, g, Normal tt).
Proof.
  unfold discord, webhook_events. unfold_M.
  destruct (DISCORD_WEBHOOK_URL (env g)) as [url|]; cbn; [|reflexivity].
  destruct (is_empty url); [reflexivity|].
  destruct posted; reflexivity.
Qed.

Lemma swapOnce_frame w g t g' r :
  swapOnce w g = (t, g', r) -> g' = g.
Proof. swap_cases; congruence. Qed.

Lemma swapOnce_steps_prefix w g :
  steps (trace_of (swapOnce w g)) `prefix_of` chain.
Proof.
  unfold trace_of. swap_cases; cbn;
    solve [ by eexists | apply prefix_nil ].
Qed.

Lemma swapOnce_reached w g s1 s2 :
  s2 ∈ steps (trace_of (swapOnce w g)) ->
  (rank s1 < rank s2)%nat ->
  step_succeeded w s1 = true.
Proof.
  unfold trace_of. swap_cases; cbn; intros Hin Hlt;
    repeat (apply elem_of_cons in Hin as [->|Hin]);
    try (by apply elem_of_nil in Hin);
    destruct s1; cbn in Hlt; try lia; cbn;
    repeat match goal with
           | H : _ = _ |- _ => rewrite H; clear H; cbn
           end; reflexivity.
Qed.

(** The trace and the result of a call of [swapOnce] that returns. *)
Lemma swapOnce_normal w g t g' r :
  swapOnce w g = (t, g', Normal r) ->
  exists route tx,
    t = [EvQuote (toBase58 (INPUT g)) (toBase58 (OUTPUT g))
           (Number (AMOUNT_IN_BASE_UNITS (env g)))
           (String_or (MAX_SLIPPAGE_BPS (env g)) "50");
         EvBuild route (toBase58 (publicKey (wallet g)));
         EvSign (publicKey (wallet g));
         EvSend (sign (wallet g) tx);
         EvConfirm (sig r)]
    /\ sent w = Normal (sig r)
    /\ is_normal (confirmation w) = true
    /\ r = {| sig := sig r; inMint := toBase58 (INPUT g);
              outMint := toBase58 (OUTPUT g);
              amount := Number (AMOUNT_IN_BASE_UNITS (env g)) |}.
Proof.
  swap_cases; intros [= <- <- <-]; cbn;
    repeat match goal with H : confirmation _ = _ |- _ => rewrite H end;
    eauto 10.
Qed.

Lemma swapOnce_throw_unconfirmed w g t g' e :
  swapOnce w g = (t, g', Throw e) ->
  bool_decide (Confirm ∈ steps t) && is_normal (confirmation w) = false.
Proof.
  swap_cases; intros [= <- <- <-]; cbn;
    repeat match goal with H : confirmation _ = _ |- _ => rewrite H end;
    cbn; rewrite ?andb_false_r; try reflexivity.
Qed.

Lemma swapOnce_normal_succeeded w g t g' r :
  swapOnce w g = (t, g', Normal r) ->
  forall s : Step, step_succeeded w s = true.
Proof.
  intros Hs s. pose proof Hs as Hn.
  apply swapOnce_normal in Hn as (route & tx & Ht & _ & Hconf & _).
  destruct (decide (s = Confirm)) as [->|Hne]; [exact Hconf|].
  apply (swapOnce_reached w g s Confirm).
  - rewrite Hs. unfold trace_of. cbn [fst]. rewrite Ht. cbn. set_solver.
  - destruct s; cbn; try lia. done.
Qed.

Lemma swapOnce_fails w g :
  swap_fails w -> is_normal (outcome_of (swapOnce w g)) = false.
Proof.
  intros [s Hs].
  destruct (swapOnce w g) as [[t g'] [r|e]] eqn:Hrun; [|reflexivity].
  rewrite (swapOnce_normal_succeeded _ _ _ _ _ Hrun s) in Hs. done.
Qed.

Lemma swapOnce_valid_attempts w g :
  amount_valid (env g) -> attempts (trace_of (swapOnce w g)) = 1%nat.
Proof.
  unfold amount_valid, trace_of, attempts. intros Hv.
  swap_cases; reflexivity.
Qed.

Lemma swapOnce_attempts w g :
  (attempts (trace_of (swapOnce w g)) <= 1)%nat.
Proof. unfold trace_of, attempts. swap_cases; cbn; lia. Qed.

Lemma swapOnce_invalid_amount w g :
  negb (isFinite (Number (AMOUNT_IN_BASE_UNITS (env g))))
  || le_zero (Number (AMOUNT_IN_BASE_UNITS (env g))) = true ->
  swapOnce w g = ([], g, Throw amount_error).
Proof. intros H. unfold swapOnce. unfold_M. rewrite H. reflexivity. Qed.

Lemma env_day_check w g : env (day_check w g) = env g.
Proof. unfold day_check. case_match; reflexivity. Qed.

(** The three ways an iteration goes. *)
Lemma loop_body_capped w g :
  capped (day_check w g) = true ->
  loop_body w g =
    ((webhook_events g LimitReached ++ [sleep_event g])%list,
     day_check w g, Normal tt).
Proof.
  unfold capped, loop_body, attempt, sleep, day_check, sleep_event.
  intros H. unfold_M.
  destruct (getUTCDate (now w) =? lastDay g) eqn:E; cbn in *;
    rewrite H, discord_run; reflexivity.
Qed.

Lemma loop_body_failed w g ts g1 e :
  capped (day_check w g) = false ->
  swapOnce (swap w) (day_check w g) = (ts, g1, Throw e) ->
  loop_body w g =
    ((ts ++ EvConsoleError e :: webhook_events g (SwapError (error_text e))
         ++ [sleep_event g])%list,
     day_check w g, Normal tt).
Proof.
  intros H Hs. pose proof (swapOnce_frame _ _ _ _ _ Hs) as ->.
  revert H Hs.
  unfold capped, loop_body, attempt, handler, sleep, day_check,
    sleep_event.
  unfold_M.
  destruct (getUTCDate (now w) =? lastDay g) eqn:E; cbn;
    intros -> ->; rewrite discord_run; cbn;
    rewrite <- ?app_assoc; reflexivity.
Qed.

Lemma loop_body_traded w g ts g1 r :
  capped (day_check w g) = false ->
  swapOnce (swap w) (day_check w g) = (ts, g1, Normal r) ->
  loop_body w g =
    ((ts ++
      match SIDE (env g) with
      | Some s =>
          webhook_events g
            (Executed (toUpperCase s) (inMint r) (outMint r) (amount r) (sig r))
          ++ [EvConsoleLog (LogSwapOk (log_time w) (sig r))]
      | None =>
          EvConsoleError side_error
          :: webhook_events g (SwapError (error_text side_error))
      end ++ [sleep_event g])%list,
     set_tradesToday (succ (tradesToday (day_check w g))) (day_check w g),
     Normal tt).
Proof.
  intros H Hs. pose proof (swapOnce_frame _ _ _ _ _ Hs) as ->.
  revert H Hs.
  unfold capped, loop_body, attempt, handler, sleep, day_check,
    sleep_event, SIDE_toUpperCase.
  unfold_M.
  destruct (getUTCDate (now w) =? lastDay g) eqn:E; cbn;
    intros -> ->; cbn; destruct (SIDE (env g)); cbn;
    rewrite ?discord_run; cbn; rewrite ?discord_run; cbn;
    rewrite <- ?app_assoc; cbn; rewrite ?app_nil_r; reflexivity.
Qed.

(** An iteration in terms of its [try] block: whatever the block does, the
    iteration completes, with the sleep as its last action. *)
Lemma loop_body_attempt w g :
  loop_body w g =
    match attempt w g with
    | (ta, ga, Normal _) => ((ta ++ [sleep_event ga])%list, ga, Normal tt)
    | (ta, ga, Throw e) =>
        ((ta ++ EvConsoleError e
             :: webhook_events ga (SwapError (error_text e))
             ++ [sleep_event ga])%list, ga, Normal tt)
    end.
Proof.
  unfold loop_body, handler, sleep, sleep_event. unfold_M.
  destruct (attempt w g) as [[ta ga] [[]|e]]; cbn.
  - reflexivity.
  - rewrite discord_run. cbn. rewrite <- app_assoc. reflexivity.
Qed.

Lemma loop_body_inv w g :
  let g1 := day_check w g in
  (capped g1 = true /\
   loop_body w g =
     ((webhook_events g LimitReached ++ [sleep_event g])%list, g1, Normal tt))
  \/ (capped g1 = false /\
      exists ts e,
        swapOnce (swap w) g1 = (ts, g1, Throw e) /\
        loop_body w g =
          ((ts ++ EvConsoleError e
               :: webhook_events g (SwapError (error_text e))
               ++ [sleep_event g])%list, g1, Normal tt))
  \/ (capped g1 = false /\
      exists ts r,
        swapOnce (swap w) g1 = (ts, g1, Normal r) /\
        loop_body w g =
          ((ts ++
            match SIDE (env g) with
            | Some s =>
                webhook_events g
                  (Executed (toUpperCase s) (inMint r) (outMint r)
                     (amount r) (sig r))
                ++ [EvConsoleLog (LogSwapOk (log_time w) (sig r))]
            | None =>
                EvConsoleError side_error
                :: webhook_events g (SwapError (error_text side_error))
            end ++ [sleep_event g])%list,
           set_tradesToday (succ (tradesToday g1)) g1, Normal tt)).
Proof.
  intros g1. destruct (capped g1) eqn:Hc.
  - left. split; [reflexivity|]. by apply loop_body_capped.
  - right. destruct (swapOnce (swap w) g1) as [[ts g2] [r|e]] eqn:Hs;
      pose proof (swapOnce_frame _ _ _ _ _ Hs) as ->.
    + right. split; [reflexivity|]. exists ts, r. split; [reflexivity|].
      by eapply loop_body_traded.
    + left. split; [reflexivity|]. exists ts, e. split; [reflexivity|].
      by eapply loop_body_failed.
Qed.

Lemma steps_app t1 t2 : steps (t1 ++ t2) = (steps t1 ++ steps t2)%list.
Proof. apply omap_app. Qed.

Lemma steps_webhook g msg : steps (webhook_events g msg) = [].
Proof. unfold webhook_events. repeat case_match; reflexivity. Qed.

Lemma sleeps_app t1 t2 : sleeps (t1 ++ t2) = (sleeps t1 + sleeps t2)%nat.
Proof. unfold sleeps. rewrite filter_app, length_app. reflexivity. Qed.

Lemma sleeps_webhook g msg : sleeps (webhook_events g msg) = 0%nat.
Proof. unfold webhook_events. repeat case_match; reflexivity. Qed.

Lemma swapOnce_sleeps w g : sleeps (trace_of (swapOnce w g)) = 0%nat.
Proof. unfold trace_of. swap_cases; reflexivity. Qed.

(** The chain steps of an iteration are those of its call of [swapOnce],
    when it makes one. *)
Lemma loop_body_steps w g :
  steps (trace_of (loop_body w g)) =
    if capped (day_check w g) then []
    else steps (trace_of (swapOnce (swap w) (day_check w g))).
Proof.
  destruct (loop_body_inv w g)
    as [[Hc ->]|[[Hc (ts & e & Hs & ->)]|[Hc (ts & r & Hs & ->)]]];
    rewrite Hc; unfold trace_of; cbn -[steps]; rewrite ?Hs; cbn -[steps].
  - rewrite steps_app, steps_webhook. reflexivity.
  - rewrite steps_app. cbn -[steps webhook_events].
    change (EvConsoleError e :: ?l) with ([EvConsoleError e] ++ l)%list.
    rewrite !steps_app, steps_webhook. cbn. by rewrite app_nil_r.
  - rewrite steps_app. destruct (SIDE (env g)).
    + rewrite !steps_app, steps_webhook. cbn. by rewrite app_nil_r.
    + change (EvConsoleError ?e :: ?l) with ([EvConsoleError e] ++ l)%list.
      rewrite !steps_app, steps_webhook. cbn. by rewrite app_nil_r.
Qed.

(** An iteration executed a swap exactly when it was under the cap and its
    call of [swapOnce] returned. *)
Lemma loop_body_executed w g :
  swap_executed w (trace_of (loop_body w g)) =
    negb (capped (day_check w g))
    && is_normal (outcome_of (swapOnce (swap w) (day_check w g))).
Proof.
  unfold swap_executed. rewrite loop_body_steps.
  destruct (capped (day_check w g)); [reflexivity|]. cbn.
  destruct (swapOnce (swap w) (day_check w g)) as [[ts g1] [r|e]] eqn:Hs.
  - apply swapOnce_normal in Hs as (route & tx & -> & _ & Hc & _).
    rewrite Hc. reflexivity.
  - apply swapOnce_throw_unconfirmed in Hs. exact Hs.
Qed.

Lemma loop_body_state w g :
  state_of (loop_body w g) =
    if swap_executed w (trace_of (loop_body w g))
    then set_tradesToday (succ (tradesToday (day_check w g))) (day_check w g)
    else day_check w g.
Proof.
  rewrite loop_body_executed.
  destruct (loop_body_inv w g)
    as [[Hc ->]|[[Hc (ts & e & Hs & ->)]|[Hc (ts & r & Hs & ->)]]];
    rewrite Hc, ?Hs; reflexivity.
Qed.

Lemma loop_body_outcome w g : outcome_of (loop_body w g) = Normal tt.
Proof.
  destruct (loop_body_inv w g)
    as [[Hc ->]|[[Hc (ts & e & Hs & ->)]|[Hc (ts & r & Hs & ->)]]];
    reflexivity.
Qed.

Lemma loop_body_eta w g :
  loop_body w g =
    (trace_of (loop_body w g), state_of (loop_body w g), Normal tt).
Proof.
  pose proof (loop_body_outcome w g) as H.
  destruct (loop_body w g) as [[t g'] r]. cbn in *. by subst.
Qed.

Lemma loop_cons w ws g :
  loop (w :: ws) g =
    ((trace_of (loop_body w g)
      ++ trace_of (loop ws (state_of (loop_body w g))))%list,
     state_of (loop ws (state_of (loop_body w g))),
     outcome_of (loop ws (state_of (loop_body w g)))).
Proof.
  cbn [loop]. unfold mbind at 1, M_bind. rewrite loop_body_eta.
  cbn. destruct (loop ws _) as [[t g'] r]. reflexivity.
Qed.

Lemma loop_cons_trace w ws g :
  trace_of (loop (w :: ws) g) =
    (trace_of (loop_body w g)
     ++ trace_of (loop ws (state_of (loop_body w g))))%list.
Proof. by rewrite loop_cons. Qed.

Lemma loop_cons_state w ws g :
  state_of (loop (w :: ws) g) = state_of (loop ws (state_of (loop_body w g))).
Proof. by rewrite loop_cons. Qed.

Lemma loop_cons_outcome w ws g :
  outcome_of (loop (w :: ws) g)
  = outcome_of (loop ws (state_of (loop_body w g))).
Proof. by rewrite loop_cons. Qed.

(** ** What an iteration leaves unchanged *)

Lemma same_constants_refl g : same_constants g g.
Proof. unfold same_constants. by destruct g. Qed.

Lemma same_constants_trans g1 g2 g3 :
  same_constants g1 g2 -> same_constants g2 g3 -> same_constants g1 g3.
Proof.
  unfold same_constants. intros H12 H23. rewrite H23 at 1. rewrite H12 at 1.
  reflexivity.
Qed.

Lemma same_constants_day_check w g : same_constants g (day_check w g).
Proof.
  unfold day_check. case_match; [apply same_constants_refl|].
  reflexivity.
Qed.

Lemma same_constants_loop_body w g :
  same_constants g (state_of (loop_body w g)).
Proof.
  rewrite loop_body_state. case_match.
  - eapply same_constants_trans; [apply same_constants_day_check|].
    reflexivity.
  - apply same_constants_day_check.
Qed.

Lemma same_constants_loop ws g : same_constants g (state_of (loop ws g)).
Proof.
  revert g. induction ws as [|w ws IH]; intros g.
  - apply same_constants_refl.
  - rewrite loop_cons_state.
    eapply same_constants_trans; [apply same_constants_loop_body|apply IH].
Qed.

Lemma same_constants_env g g' : same_constants g g' -> env g' = env g.
Proof. unfold same_constants. intros ->. reflexivity. Qed.

Lemma same_constants_mints g g' :
  same_constants g g' -> INPUT g' = INPUT g /\ OUTPUT g' = OUTPUT g.
Proof. unfold same_constants. intros ->. split; reflexivity. Qed.

Lemma loop_outcome ws g : outcome_of (loop ws g) = Normal tt.
Proof.
  revert g. induction ws as [|w ws IH]; intros g; [reflexivity|].
  rewrite loop_cons_outcome. apply IH.
Qed.

Lemma loop_body_sleeps w g : sleeps (trace_of (loop_body w g)) = 1%nat.
Proof.
  destruct (loop_body_inv w g)
    as [[Hc ->]|[[Hc (ts & e & Hs & ->)]|[Hc (ts & r & Hs & ->)]]];
    unfold trace_of; cbn -[sleeps].
  - by rewrite sleeps_app, sleeps_webhook.
  - pose proof (swapOnce_sleeps (swap w) (day_check w g)) as H0.
    rewrite Hs in H0. unfold trace_of in H0. cbn -[sleeps] in H0.
    change (EvConsoleError e :: ?l) with ([EvConsoleError e] ++ l)%list.
    by rewrite !sleeps_app, H0, sleeps_webhook.
  - pose proof (swapOnce_sleeps (swap w) (day_check w g)) as H0.
    rewrite Hs in H0. unfold trace_of in H0. cbn -[sleeps] in H0.
    rewrite sleeps_app, H0. destruct (SIDE (env g)).
    + by rewrite !sleeps_app, sleeps_webhook.
    + change (EvConsoleError ?e :: ?l) with ([EvConsoleError e] ++ l)%list.
      by rewrite !sleeps_app, sleeps_webhook.
Qed.

Lemma loop_sleeps ws g : sleeps (trace_of (loop ws g)) = length ws.
Proof.
  revert g. induction ws as [|w ws IH]; intros g; [reflexivity|].
  rewrite loop_cons_trace, sleeps_app, loop_body_sleeps, IH. reflexivity.
Qed.

(** ** The [try] block *)

Lemma attempt_inv w g :
  let g1 := day_check w g in
  (capped g1 = true /\
   attempt w g = (webhook_events g LimitReached, g1, Normal tt))
  \/ (capped g1 = false /\
      exists ts e,
        swapOnce (swap w) g1 = (ts, g1, Throw e) /\
        attempt w g = (ts, g1, Throw e))
  \/ (capped g1 = false /\
      exists ts r,
        swapOnce (swap w) g1 = (ts, g1, Normal r) /\
        attempt w g =
          match SIDE (env g) with
          | Some s =>
              ((ts ++ webhook_events g
                        (Executed (toUpperCase s) (inMint r) (outMint r)
                           (amount r) (sig r))
                   ++ [EvConsoleLog (LogSwapOk (log_time w) (sig r))])%list,
               set_tradesToday (succ (tradesToday g1)) g1, Normal tt)
          | None =>
              (ts, set_tradesToday (succ (tradesToday g1)) g1,
               Throw side_error)
          end).
Proof.
  intros g1. destruct (capped g1) eqn:Hc; [left|right].
  - split; [reflexivity|]. revert Hc. subst g1.
    unfold capped, attempt, day_check. unfold_M.
    destruct (getUTCDate (now w) =? lastDay g); cbn; intros ->;
      rewrite discord_run; reflexivity.
  - destruct (swapOnce (swap w) g1) as [[ts g2] [r|e]] eqn:Hs;
      pose proof (swapOnce_frame _ _ _ _ _ Hs) as ->; [right|left];
      (split; [reflexivity|]); eexists _, _; (split; [reflexivity|]);
      revert Hc Hs; subst g1;
      unfold capped, attempt, day_check, SIDE_toUpperCase; unfold_M;
      destruct (getUTCDate (now w) =? lastDay g); cbn; intros -> ->; cbn;
      try reflexivity;
      destruct (SIDE (env g)); cbn; rewrite ?discord_run; cbn;
      rewrite ?app_nil_r; reflexivity.
Qed.

Lemma started_side g : started g -> exists s, SIDE (env g) = Some s.
Proof.
  unfold started, missing_required. intros H.
  destruct (SIDE (env g)) as [s|]; [by exists s|].
  cbn in H. by rewrite !orb_true_r in H.
Qed.

(** ** The direction of the swaps in a trace *)

Lemma directed_webhook i o g msg :
  (forall u a b c d, msg <> Executed u a b c d) ->
  Forall (directed i o) (webhook_events g msg).
Proof.
  intros H. unfold webhook_events. repeat case_match; repeat constructor.
  unfold directed. destruct msg; cbn; try done. exfalso. by eapply H.
Qed.

Lemma swapOnce_directed w g :
  Forall (directed (toBase58 (INPUT g)) (toBase58 (OUTPUT g)))
    (trace_of (swapOnce w g)).
Proof. unfold trace_of. swap_cases; repeat constructor. Qed.

Lemma loop_body_directed w g :
  Forall (directed (toBase58 (INPUT g)) (toBase58 (OUTPUT g)))
    (trace_of (loop_body w g)).
Proof.
  pose proof (swapOnce_directed (swap w) (day_check w g)) as Hsw.
  destruct (same_constants_mints _ _ (same_constants_day_check w g))
    as [Hi Ho].
  rewrite Hi, Ho in Hsw.
  destruct (loop_body_inv w g)
    as [[Hc ->]|[[Hc (ts & e & Hs & ->)]|[Hc (ts & r & Hs & ->)]]];
    unfold trace_of; cbn; rewrite ?Hs in Hsw; unfold trace_of in Hsw;
    cbn in Hsw.
  - apply Forall_app. split; [by apply directed_webhook|repeat constructor].
  - apply Forall_app. split; [done|]. constructor; [done|].
    apply Forall_app. split; [by apply directed_webhook|repeat constructor].
  - apply Forall_app. split; [done|]. apply Forall_app.
    split; [|repeat constructor].
    apply swapOnce_normal in Hs as (route & tx & _ & _ & _ & Hr).
    rewrite Hi, Ho in Hr. rewrite Hr. cbn.
    destruct (SIDE (env g)).
    + apply Forall_app. split; [|repeat constructor].
      unfold webhook_events. repeat case_match; repeat constructor.
    + constructor; [done|]. by apply directed_webhook.
Qed.

Lemma loop_directed ws g :
  Forall (directed (toBase58 (INPUT g)) (toBase58 (OUTPUT g)))
    (trace_of (loop ws g)).
Proof.
  revert g. induction ws as [|w ws IH]; intros g; [constructor|].
  rewrite loop_cons_trace.
  apply Forall_app. split; [apply loop_body_directed|].
  specialize (IH (state_of (loop_body w g))).
  destruct (same_constants_mints _ _ (same_constants_loop_body w g))
    as [Hi Ho].
  by rewrite Hi, Ho in IH.
Qed.

(** ** Runs with an invalid amount *)

Lemma amount_invalid_test e :
  amount_invalid e ->
  negb (isFinite (Number (AMOUNT_IN_BASE_UNITS e)))
  || le_zero (Number (AMOUNT_IN_BASE_UNITS e)) = true.
Proof.
  intros [H|[H|H]].
  - rewrite H. reflexivity.
  - rewrite H. reflexivity.
  - rewrite H. apply orb_true_r.
Qed.

Lemma loop_body_invalid_amount w g :
  amount_invalid (env g) ->
  steps (trace_of (loop_body w g)) = []
  /\ swap_executed w (trace_of (loop_body w g)) = false
  /\ state_of (loop_body w g) = day_check w g.
Proof.
  intros H.
  assert (Hs : swapOnce (swap w) (day_check w g)
               = ([], day_check w g, Throw amount_error)).
  { apply swapOnce_invalid_amount. rewrite env_day_check.
    by apply amount_invalid_test. }
  assert (Hex : swap_executed w (trace_of (loop_body w g)) = false).
  { rewrite loop_body_executed, Hs. apply andb_false_r. }
  split; [|split; [exact Hex|]].
  - rewrite loop_body_steps, Hs. by case_match.
  - by rewrite loop_body_state, Hex.
Qed.

Lemma tradesToday_day_check w g :
  tradesToday (day_check w g) = tradesToday g
  \/ tradesToday (day_check w g) = 0.
Proof. unfold day_check. case_match; [by left|by right]. Qed.

Lemma loop_invalid_amount ws g :
  amount_invalid (env g) ->
  steps (trace_of (loop ws g)) = []
  /\ (forall d, executed_on d ws g = 0)
  /\ (tradesToday (state_of (loop ws g)) = tradesToday g
      \/ tradesToday (state_of (loop ws g)) = 0).
Proof.
  revert g. induction ws as [|w ws IH]; intros g H.
  - repeat split. by left.
  - destruct (loop_body_invalid_amount w g H) as (Hsteps & Hex & Hstate).
    assert (H' : amount_invalid (env (state_of (loop_body w g)))).
    { by rewrite Hstate, env_day_check. }
    destruct (IH _ H') as (IH1 & IH2 & IH3).
    rewrite loop_cons_trace, loop_cons_state.
    split; [|split].
    + by rewrite steps_app, Hsteps, IH1.
    + intros d. cbn [executed_on]. rewrite Hex, andb_false_r, IH2.
      reflexivity.
    + rewrite Hstate in IH3 |- *.
      destruct IH3 as [->| ->]; [apply tradesToday_day_check|by right].
Qed.

Lemma loop_invalid_amount_trace ws g :
  amount_invalid (env g) ->
  tradesToday g = 0 ->
  int_ge 0 (daily_cap (env g)) = false ->
  trace_of (loop ws g)
  = concat (replicate (length ws) (amount_error_round g)).
Proof.
  revert g. induction ws as [|w ws IH]; intros g H Hzero Hcap;
    [reflexivity|].
  assert (Hzero' : tradesToday (day_check w g) = 0).
  { destruct (tradesToday_day_check w g) as [->|]; done. }
  assert (Hc : capped (day_check w g) = false).
  { unfold capped. by rewrite Hzero', env_day_check. }
  assert (Hs : swapOnce (swap w) (day_check w g)
               = ([], day_check w g, Throw amount_error)).
  { apply swapOnce_invalid_amount. rewrite env_day_check.
    by apply amount_invalid_test. }
  rewrite loop_cons_trace, (loop_body_failed w g _ _ _ Hc Hs).
  unfold trace_of at 1, state_of. cbn [fst snd length replicate concat].
  rewrite IH; rewrite ?env_day_check; try done.
  unfold amount_error_round, webhook_events, sleep_event.
  by rewrite env_day_check.
Qed.

(** ** Repeating an iteration that changes nothing *)

Lemma attempts_app t1 t2 :
  attempts (t1 ++ t2) = (attempts t1 + attempts t2)%nat.
Proof.
  unfold attempts. by rewrite steps_app, filter_app, length_app.
Qed.

Lemma loop_body_attempts w g :
  (attempts (trace_of (loop_body w g)) <= 1)%nat.
Proof.
  unfold attempts. rewrite loop_body_steps.
  case_match; [cbn; lia|apply swapOnce_attempts].
Qed.

Lemma loop_attempts ws g :
  (attempts (trace_of (loop ws g)) <= length ws)%nat.
Proof.
  revert g. induction ws as [|w ws IH]; intros g; [cbn; lia|].
  rewrite loop_cons_trace, attempts_app. cbn [length].
  pose proof (loop_body_attempts w g).
  specialize (IH (state_of (loop_body w g))). lia.
Qed.

Lemma loop_failing_attempts ws g :
  amount_valid (env g) ->
  capped g = false ->
  int_ge 0 (daily_cap (env g)) = false ->
  Forall (fun w => swap_fails (swap w)) ws ->
  attempts (trace_of (loop ws g)) = length ws.
Proof.
  intros Hv Hc H0 Hall. revert g Hv Hc H0.
  induction Hall as [|w ws Hw _ IH]; intros g Hv Hc H0; [reflexivity|].
  assert (Hc1 : capped (day_check w g) = false).
  { unfold capped in *. rewrite env_day_check.
    destruct (tradesToday_day_check w g) as [-> | ->]; done. }
  assert (Hex : swap_executed w (trace_of (loop_body w g)) = false).
  { rewrite loop_body_executed, (swapOnce_fails _ _ Hw). apply andb_false_r. }
  assert (Hstate : state_of (loop_body w g) = day_check w g)
    by (by rewrite loop_body_state, Hex).
  rewrite loop_cons_trace, attempts_app, Hstate. cbn [length].
  rewrite IH; rewrite ?env_day_check; try done.
  unfold attempts at 1. rewrite loop_body_steps, Hc1.
  fold (attempts (trace_of (swapOnce (swap w) (day_check w g)))).
  rewrite swapOnce_valid_attempts; [reflexivity|]. by rewrite env_day_check.
Qed.

Lemma loop_replicate_attempts w g n :
  state_of (loop_body w g) = g ->
  attempts (trace_of (loop (replicate n w) g))
  = (n * attempts (trace_of (loop_body w g)))%nat.
Proof.
  intros Hfix. induction n as [|n IH]; [reflexivity|].
  cbn [replicate]. rewrite loop_cons_trace, attempts_app, Hfix, IH. lia.
Qed.

(** ** Swaps executed on one UTC day *)

Lemma int_ge_false_ceiling n m k :
  int_ge n (Finite m k) = false -> n + 1 <= ceiling m k.
Proof.
  unfold int_ge, ceiling. intros H. apply Z.leb_gt in H.
  assert (Hp : 0 < 2 ^ Z.of_N k) by (apply Z.pow_pos_nonneg; lia).
  assert (Hd : (- m) / 2 ^ Z.of_N k < - n).
  { apply Z.div_lt_upper_bound; [exact Hp|]. nia. }
  lia.
Qed.

Lemma Day_mono t1 t2 : t1 <= t2 -> Day t1 <= Day t2.
Proof. intros H. unfold Day, msPerDay. apply Z.div_le_mono; lia. Qed.

Lemma loop_body_day_check w g :
  loop_body w (day_check w g) = loop_body w g.
Proof.
  unfold loop_body, attempt, day_check. unfold_M.
  destruct (getUTCDate (now w) =? lastDay g) eqn:E; cbn.
  - rewrite E. reflexivity.
  - rewrite Z.eqb_refl. reflexivity.
Qed.

Lemma lastDay_day_check w g : lastDay (day_check w g) = getUTCDate (now w).
Proof.
  unfold day_check. destruct (Z.eqb_spec (getUTCDate (now w)) (lastDay g));
    [congruence|reflexivity].
Qed.

(** The day test resets the counter exactly when the day of the month read
    from the clock differs from the recorded one. *)
Lemma day_check_reset w g :
  getUTCDate (now w) <> lastDay g ->
  tradesToday (day_check w g) = 0
  /\ lastDay (day_check w g) = getUTCDate (now w).
Proof.
  intros H. unfold day_check.
  destruct (Z.eqb_spec (getUTCDate (now w)) (lastDay g)); done.
Qed.

Lemma day_check_same w g :
  getUTCDate (now w) = lastDay g -> day_check w g = g.
Proof. intros H. unfold day_check. by rewrite H, Z.eqb_refl. Qed.

Lemma executed_on_other_days d ws g :
  Forall (fun w => Day (now w) <> d) ws -> executed_on d ws g = 0.
Proof.
  intros H. revert g. induction H as [|w ws Hw _ IH]; intros g;
    [reflexivity|].
  cbn [executed_on]. rewrite IH.
  destruct (Z.eqb_spec (Day (now w)) d); [done|reflexivity].
Qed.

Lemma sorted_cons_inv w ws :
  StronglySorted Z.le (now <$> (w :: ws)) ->
  StronglySorted Z.le (now <$> ws)
  /\ Forall (fun w' => Day (now w) <= Day (now w')) ws.
Proof.
  rewrite fmap_cons. intros Hs. apply StronglySorted_inv in Hs as [Hs Hall].
  split; [exact Hs|]. rewrite Forall_fmap in Hall.
  eapply Forall_impl; [exact Hall|]. intros w' Hle. by apply Day_mono.
Qed.

Lemma sorted_later_days d w ws :
  d < Day (now w) ->
  StronglySorted Z.le (now <$> (w :: ws)) ->
  Forall (fun w' => Day (now w') <> d) (w :: ws).
Proof.
  intros Hd Hs. apply sorted_cons_inv in Hs as [_ Hall].
  constructor; [lia|]. eapply Forall_impl; [exact Hall|].
  intros w' Hle. cbn in Hle. lia.
Qed.

Section DailyCap.

Variables (d : Z) (m : Z) (k : N).
Hypothesis cap_small : ceiling m k <= max_exact.

Lemma cap_is_day_check w g : cap_is m k g -> cap_is m k (day_check w g).
Proof.
  intros [Hcap Hpos]. split; [by rewrite env_day_check|].
  destruct (tradesToday_day_check w g) as [-> | ->]; lia.
Qed.

(** An executed swap found the counter below the cap, and moved it up by
    one. *)
Lemma executed_increments w g :
  cap_is m k g ->
  swap_executed w (trace_of (loop_body w g)) = true ->
  tradesToday (state_of (loop_body w g)) = tradesToday (day_check w g) + 1
  /\ tradesToday (day_check w g) + 1 <= ceiling m k.
Proof.
  intros Hg Hex. destruct (cap_is_day_check w g Hg) as [Hcap Hpos].
  rewrite loop_body_state, Hex. cbn.
  rewrite loop_body_executed in Hex. apply andb_true_iff in Hex as [Hc _].
  apply negb_true_iff in Hc. unfold capped in Hc. rewrite Hcap in Hc.
  apply int_ge_false_ceiling in Hc. split; [|exact Hc].
  unfold succ. destruct (Z.ltb_spec (tradesToday (day_check w g)) max_exact);
    lia.
Qed.

Lemma cap_is_loop_body w g :
  cap_is m k g -> cap_is m k (state_of (loop_body w g)).
Proof.
  intros Hg. pose proof (cap_is_day_check w g Hg) as [Hcap Hpos].
  destruct (swap_executed w (trace_of (loop_body w g))) eqn:Hex.
  - destruct (executed_increments w g Hg Hex) as [Ht _]. split.
    + rewrite (same_constants_env _ _ (same_constants_loop_body w g)).
      apply Hg.
    + lia.
  - rewrite loop_body_state, Hex. by split.
Qed.

(** From the first iteration of day [d] on, no reset happens during the
    day: the swaps of the day fit between the counter and the cap. *)
Lemma executed_on_block ws g :
  cap_is m k g ->
  lastDay g = (civil_of_day d).2 ->
  Forall (fun w => d <= Day (now w)) ws ->
  StronglySorted Z.le (now <$> ws) ->
  executed_on d ws g <= Z.max 0 (ceiling m k - tradesToday g).
Proof.
  revert g. induction ws as [|w ws IH]; intros g Hg Hlast Hall Hsorted;
    [cbn; lia|].
  apply Forall_cons in Hall as [Hw Hall].
  destruct (Z.eq_dec (Day (now w)) d) as [Hd|Hd].
  - assert (Hsame : day_check w g = g).
    { unfold day_check, getUTCDate. by rewrite Hd, Hlast, Z.eqb_refl. }
    pose proof (sorted_cons_inv _ _ Hsorted) as [Hsorted' _].
    cbn [executed_on]. apply Z.eqb_eq in Hd. rewrite Hd. cbn [andb].
    pose proof (cap_is_loop_body w g Hg) as Hg'.
    assert (Hlast' : lastDay (state_of (loop_body w g)) = (civil_of_day d).2).
    { rewrite loop_body_state, Hsame. by case_match. }
    specialize (IH _ Hg' Hlast' Hall Hsorted').
    destruct (swap_executed w (trace_of (loop_body w g))) eqn:Hex.
    + destruct (executed_increments w g Hg Hex) as [Ht Hle].
      rewrite Hsame in Ht, Hle. lia.
    + assert (Hstate : state_of (loop_body w g) = g)
        by (rewrite loop_body_state, Hex; exact Hsame).
      rewrite Hstate in IH |- *. lia.
  - rewrite executed_on_other_days; [lia|].
    apply sorted_later_days; [lia|exact Hsorted].
Qed.

Lemma executed_on_bound ws g :
  cap_is m k g ->
  StronglySorted Z.le (now <$> ws) ->
  executed_on d ws g <= Z.max 0 (ceiling m k).
Proof.
  revert g. induction ws as [|w ws IH]; intros g Hg Hsorted; [cbn; lia|].
  destruct (Z.lt_trichotomy (Day (now w)) d) as [Hd|[Hd|Hd]].
  - pose proof (sorted_cons_inv _ _ Hsorted) as [Hsorted' _].
    cbn [executed_on].
    destruct (Z.eqb_spec (Day (now w)) d) as [|_]; [lia|]. cbn [andb].
    specialize (IH _ (cap_is_loop_body w g Hg) Hsorted'). lia.
  - assert (Heq : executed_on d (w :: ws) g
                  = executed_on d (w :: ws) (day_check w g)).
    { cbn [executed_on]. by rewrite loop_body_day_check. }
    rewrite Heq.
    pose proof (cap_is_day_check w g Hg) as Hg1.
    etransitivity.
    + apply executed_on_block; [exact Hg1| | |exact Hsorted].
      * rewrite lastDay_day_check. unfold getUTCDate. by rewrite Hd.
      * pose proof (sorted_cons_inv _ _ Hsorted) as [_ Hall].
        constructor; [lia|]. eapply Forall_impl; [exact Hall|].
        intros w' Hle. cbn in Hle. lia.
    + destruct Hg1 as [_ Hpos]. lia.
  - rewrite executed_on_other_days; [lia|].
    apply sorted_later_days; [lia|exact Hsorted].
Qed.

End DailyCap.

(* ===================================================================== *)
(** * The claims *)
(* ===================================================================== *)

(** C1 (as stated, refuted at a concrete input).  With
    [DAILY_BUDGET_TRADES=2.5] the cap is 2.5; four iterations of the same
    UTC day, every swap succeeding, execute three swaps, and three exceeds
    the cap. *)
Lemma C1_fractional_cap_exceeded :
  let g := sample_globals (<["DAILY_BUDGET_TRADES" := "2.5"]>) in
  let ws := [iteration_at 1705312900000 good_swap;
             iteration_at 1705314100000 good_swap;
             iteration_at 1705315300000 good_swap;
             iteration_at 1705316500000 good_swap] in
  Forall (fun w => Day (now w) = 19737 /\ Day (log_time w) = 19737) ws
  /\ daily_cap (env g) = Finite 5 1
  /\ executed_on 19737 ws g = 3
  /\ int_gt 3 (daily_cap (env g)) = true.
Proof.
  cbv zeta. split; [repeat constructor|]. repeat split.
Qed.

(** The daily bound counts a swap on the day its iteration read the clock.
    Counted on the day of its "Swap ok" line it would not hold, even for
    an integer cap: with a budget of one trade a day, a swap begun at
    23:59:59 is logged after midnight, and the next iteration, which finds
    a new day, trades again. *)
Remark swap_logged_after_midnight :
  let g := sample_globals (<["DAILY_BUDGET_TRADES" := "1"]>) in
  let ws := [iteration_at 1705363199000 good_swap;
             iteration_at 1705364401000 good_swap] in
  executed_on 19737 ws g = 1 /\ executed_on 19738 ws g = 1
  /\ logged_on 19738 ws g = 2.
Proof. cbv zeta. repeat split. Qed.

(** C1 (amended).  Let the cap [Number(DAILY_BUDGET_TRADES ?? 100)] be a
    finite number whose rounding up to an integer is at most [2^53], the
    counter be non-negative and the clock readings of the iterations not
    decrease.  Then for every UTC day the iterations that read the clock on
    that day execute at most as many swaps as the cap rounded up (none for
    a negative cap); for an integer cap that is the cap itself.  In an
    iteration whose counter has reached the cap at the cap check, no swap
    is attempted: the iteration hands the limit notice to [discord] and
    sleeps.  And an iteration adds one to the counter of the cap check when
    it executes a swap, and nothing otherwise. *)
Theorem C1_daily_cap_rounded_up :
  forall (ws : list IterWorld) (g : Globals) (d m : Z) (k : N),
    daily_cap (env g) = Finite m k ->
    ceiling m k <= max_exact ->
    0 <= tradesToday g ->
    StronglySorted Z.le (now <$> ws) ->
    executed_on d ws g <= Z.max 0 (ceiling m k)
    /\ (k = 0%N -> executed_on d ws g <= Z.max 0 m)
    /\ (forall w : IterWorld,
          capped (day_check w g) = true ->
          loop_body w g =
            ((webhook_events g LimitReached ++ [sleep_event g])%list,
             day_check w g, Normal tt))
    /\ (forall w : IterWorld,
          tradesToday (state_of (loop_body w g)) =
            tradesToday (day_check w g)
            + (if swap_executed w (trace_of (loop_body w g)) then 1 else 0)).
Proof.
  intros ws g d m k Hcap Hsmall Hpos Hsorted.
  assert (Hg : cap_is m k g) by (by split).
  pose proof (executed_on_bound d m k Hsmall ws g Hg Hsorted) as Hbound.
  split; [exact Hbound|]. split; [|split].
  - intros ->. unfold ceiling in Hbound. cbn in Hbound.
    rewrite Z.div_1_r in Hbound. lia.
  - intros w. apply loop_body_capped.
  - intros w. destruct (swap_executed w (trace_of (loop_body w g))) eqn:Hex.
    + by destruct (executed_increments m k Hsmall w g Hg Hex) as [-> _].
    + rewrite loop_body_state, Hex. lia.
Qed.

Lemma C1_daily_cap_rounded_up_witness :
  let g := sample_globals (<["DAILY_BUDGET_TRADES" := "2.5"]>) in
  let ws := [iteration_at 1705312900000 good_swap;
             iteration_at 1705314100000 failing_swap;
             iteration_at 1705315300000 good_swap;
             iteration_at 1705316500000 good_swap;
             iteration_at 1705317700000 good_swap] in
  daily_cap (env g) = Finite 5 1
  /\ ceiling 5 1 <= max_exact
  /\ 0 <= tradesToday g
  /\ StronglySorted Z.le (now <$> ws)
  /\ executed_on 19737 ws g <= Z.max 0 (ceiling 5 1).
Proof.
  intros g ws.
  assert (H1 : daily_cap (env g) = Finite 5 1) by reflexivity.
  assert (H2 : ceiling 5 1 <= max_exact) by (by vm_compute).
  assert (H3 : 0 <= tradesToday g) by (by vm_compute).
  assert (H4 : StronglySorted Z.le (now <$> ws))
    by (repeat constructor; by vm_compute).
  repeat (split; [assumption|]).
  exact (proj1 (C1_daily_cap_rounded_up ws g 19737 5 1 H1 H2 H3 H4)).
Defined.

(** C2 (as stated, refuted at a concrete input).  Without
    [DISCORD_WEBHOOK_URL], an iteration whose quote request is rejected
    throws in its [try] block; the error is caught and logged, and the
    iteration sleeps, but no notification message is sent: the trace of the
    iteration holds no webhook request. *)
Lemma C2_error_not_notified_without_webhook :
  let g := sample_globals (delete "DISCORD_WEBHOOK_URL") in
  let w := iteration_at 1705312900000 failing_swap in
  let e := Error "FetchError" "network unreachable" in
  attempt w g
  = ([EvQuote "TokenMint" "QuoteMint" (Finite 1000 0) "50"], g, Throw e)
  /\ loop_body w g
     = ([EvQuote "TokenMint" "QuoteMint" (Finite 1000 0) "50";
         EvConsoleError e;
         EvSleep (Finite 1200000 0)], g, Normal tt)
  /\ notice_count (fun _ => true) (trace_of (loop_body w g)) = 0%nat.
Proof. cbv zeta. repeat split. Qed.

(** C2 (amended).  Every error thrown by the [try] block of an iteration
    is caught and written with [console.error].  It is reported by a
    notification when [DISCORD_WEBHOOK_URL] is set and not empty: the
    iteration then makes exactly one webhook request, carrying the "Swap
    error" message, whatever becomes of that request; otherwise it makes
    none.  The iteration then completes normally, its last action being
    the sleep of [Number(INTERVAL_SECONDS ?? 1200) * 1000] milliseconds, as
    it does when the block does not throw; the next iteration follows from
    the state the iteration left.  Hence the loop never ends: any number
    of iterations completes, with one sleep each. *)
Theorem C2_errors_caught_logged_and_posted :
  (forall (w : IterWorld) (g : Globals),
     let pause :=
       EvSleep (mul_const (Number_or (INTERVAL_SECONDS (env g)) 1200) 1000) in
     match attempt w g with
     | (ta, ga, Throw e) =>
         loop_body w g =
           ((ta ++ EvConsoleError e
                :: match DISCORD_WEBHOOK_URL (env g) with
                   | Some url =>
                       if is_empty url then []
                       else [EvWebhook url (SwapError (error_text e))]
                   | None => []
                   end
                ++ [pause])%list, ga, Normal tt)
     | (ta, ga, Normal _) =>
         loop_body w g = ((ta ++ [pause])%list, ga, Normal tt)
     end)
  /\ (forall (w : IterWorld) (ws : list IterWorld) (g : Globals),
        trace_of (loop (w :: ws) g) =
          (trace_of (loop_body w g)
           ++ trace_of (loop ws (state_of (loop_body w g))))%list)
  /\ (forall (ws : list IterWorld) (g : Globals),
        outcome_of (loop ws g) = Normal tt
        /\ sleeps (trace_of (loop ws g)) = length ws).
Proof.
  split; [|split; [apply loop_cons_trace|]].
  - intros w g pause.
    pose proof (loop_body_attempt w g) as H.
    pose proof (same_constants_env _ _ (same_constants_loop_body w g)) as He.
    rewrite H in He.
    destruct (attempt w g) as [[ta ga] [[]|e]]; rewrite H;
      unfold state_of in He; cbn in He;
      unfold webhook_events, sleep_event, interval_seconds, pause;
      rewrite He; reflexivity.
  - intros ws g. split; [apply loop_outcome|apply loop_sleeps].
Qed.

(** C3 (the code at the failing input).  The script starts on
    2024-01-15 with a budget of one trade a day and trades once.  Its next
    iteration reads the clock on 2024-02-15: the UTC calendar day has
    changed, the day of the month has not.  The day test leaves the state
    as it is, the counter still holds 1, and the iteration reports the
    daily limit instead of trading. *)
Theorem C3_same_day_of_month_no_reset :
  let process_env := <["DAILY_BUDGET_TRADES" := "1"]> sample_process_env in
  let first := iteration_at 1705312900000 good_swap in
  let second := iteration_at 1707991200000 good_swap in
  civil_of_day (Day (start_time sample_init)) = (2024, 1, 15)
  /\ civil_of_day (Day (now first)) = (2024, 1, 15)
  /\ civil_of_day (Day (now second)) = (2024, 2, 15)
  /\ exists t g1,
       main process_env sample_init [first] = (t, Looping g1)
       /\ tradesToday g1 = 1 /\ lastDay g1 = 15
       /\ day_check second g1 = g1
       /\ loop_body second g1 =
            ([EvWebhook "https://hook.example" LimitReached;
              EvSleep (Finite 1200000 0)], g1, Normal tt).
Proof.
  cbv zeta. split; [reflexivity|]. split; [reflexivity|].
  split; [reflexivity|].
  eexists _, _. split; [vm_compute; reflexivity|].
  repeat split.
Qed.

(** C4. In every iteration the chain steps occur in the order quote,
    build, sign, submit, confirm, without repetition or gap, and a step is
    reached only if the world let every earlier step succeed.  An
    iteration that executes a swap goes through the whole chain exactly
    once, every step having succeeded, and [swapOnce] returns the
    signature, the input mint, the output mint and the amount after the
    confirmation call, which is the last event of its trace. *)
Theorem C4_call_chain :
  forall (w : IterWorld) (g : Globals),
    steps (trace_of (loop_body w g)) `prefix_of` chain
    /\ (forall s1 s2 : Step,
          s2 ∈ steps (trace_of (loop_body w g)) ->
          (rank s1 < rank s2)%nat ->
          step_succeeded (swap w) s1 = true)
    /\ (swap_executed w (trace_of (loop_body w g)) = true ->
          steps (trace_of (loop_body w g)) = chain
          /\ (forall s : Step, step_succeeded (swap w) s = true)
          /\ exists (r : SwapResult) route tx,
               swapOnce (swap w) (day_check w g) =
                 ([EvQuote (toBase58 (INPUT g)) (toBase58 (OUTPUT g))
                     (Number (AMOUNT_IN_BASE_UNITS (env g)))
                     (String_or (MAX_SLIPPAGE_BPS (env g)) "50");
                   EvBuild route (toBase58 (publicKey (wallet g)));
                   EvSign (publicKey (wallet g));
                   EvSend (sign (wallet g) tx);
                   EvConfirm (sig r)],
                  day_check w g, Normal r)
               /\ sent (swap w) = Normal (sig r)
               /\ r = {| sig := sig r; inMint := toBase58 (INPUT g);
                         outMint := toBase58 (OUTPUT g);
                         amount := Number (AMOUNT_IN_BASE_UNITS (env g)) |}).
Proof.
  intros w g. rewrite loop_body_steps, loop_body_executed.
  destruct (capped (day_check w g)) eqn:Hc; cbn [negb andb].
  { split; [apply prefix_nil|]. split; [|done].
    intros s1 s2 Hin. by apply elem_of_nil in Hin. }
  split; [apply swapOnce_steps_prefix|].
  split; [intros s1 s2; apply swapOnce_reached|].
  destruct (swapOnce (swap w) (day_check w g)) as [[ts g1] [r|e]] eqn:Hs;
    [|done].
  intros _. pose proof (swapOnce_frame _ _ _ _ _ Hs) as ->.
  pose proof Hs as Hn.
  apply swapOnce_normal in Hn as (route & tx & -> & Hsent & Hconf & Hr).
  pose proof (same_constants_day_check w g) as Hg.
  destruct (same_constants_mints _ _ Hg) as [Hi Ho].
  assert (Hw : wallet (day_check w g) = wallet g).
  { unfold same_constants in Hg. rewrite Hg. reflexivity. }
  rewrite (same_constants_env _ _ Hg), Hi, Ho, Hw in *.
  split; [reflexivity|]. split.
  - by eapply swapOnce_normal_succeeded.
  - by exists r, route, tx.
Qed.

Lemma C4_call_chain_witness :
  let w := iteration_at 1705312900000 good_swap in
  let g := sample_globals id in
  swap_executed w (trace_of (loop_body w g)) = true
  /\ steps (trace_of (loop_body w g)) = chain.
Proof.
  intros w g.
  assert (H : swap_executed w (trace_of (loop_body w g)) = true)
    by reflexivity.
  split; [exact H|].
  destruct (C4_call_chain w g) as (_ & _ & Hex).
  exact (proj1 (Hex H)).
Defined.

(** C5 (as stated, refuted at a concrete input).  With the quote service
    unreachable, the sample configuration makes one swap attempt in each
    iteration: no number bounds the attempts of the loop. *)
Lemma C5_retries_unbounded :
  ~ exists bound : nat,
      forall n : nat,
        (attempts
           (trace_of
              (loop (replicate n (iteration_at 1705312900000 failing_swap))
                    (sample_globals id)))
         <= bound)%nat.
Proof.
  intros [bound H]. specialize (H (S bound)).
  rewrite loop_replicate_attempts in H by reflexivity.
  change (attempts _) with 1%nat in H. lia.
Qed.

(** C5 (amended).  The loop is an unbounded retry cycle.  An iteration
    makes at most one swap attempt, so [n] iterations make at most [n];
    and a swap that fails is attempted again in every following iteration:
    with a valid amount and a cap that neither the counter nor [0] has
    reached, iterations in each of which some step of the chain fails make
    one attempt each, however many they are. *)
Theorem C5_one_attempt_per_iteration_forever :
  (forall (ws : list IterWorld) (g : Globals),
     (attempts (trace_of (loop ws g)) <= length ws)%nat)
  /\ (forall (ws : list IterWorld) (g : Globals),
        amount_valid (env g) ->
        capped g = false ->
        int_ge 0 (daily_cap (env g)) = false ->
        Forall (fun w => swap_fails (swap w)) ws ->
        attempts (trace_of (loop ws g)) = length ws).
Proof.
  split; [apply loop_attempts|apply loop_failing_attempts].
Qed.

Lemma C5_one_attempt_per_iteration_forever_witness :
  let w := iteration_at 1705312900000 failing_swap in
  let g := sample_globals id in
  amount_valid (env g)
  /\ capped g = false
  /\ int_ge 0 (daily_cap (env g)) = false
  /\ swap_fails (swap w)
  /\ attempts (trace_of (loop (replicate 1000 w) g)) = 1000%nat.
Proof.
  intros w g.
  assert (Hv : amount_valid (env g)) by reflexivity.
  assert (Hc : capped g = false) by reflexivity.
  assert (H0 : int_ge 0 (daily_cap (env g)) = false) by reflexivity.
  assert (Hw : swap_fails (swap w)) by (by exists Quote).
  repeat (split; [assumption|]).
  rewrite (proj2 C5_one_attempt_per_iteration_forever
             (replicate 1000 w) g Hv Hc H0).
  - apply length_replicate.
  - apply Forall_replicate. exact Hw.
Defined.

(** C6. Across any number of loop iterations the module-level bindings
    other than [tradesToday] and [lastDay] (environment constants,
    connection, wallet, mints) keep their values: the state after the
    iterations is the state before them with at most those two fields
    replaced. *)
Theorem C6_only_counters_change :
  forall (ws : list IterWorld) (g : Globals),
    let g' := state_of (loop ws g) in
    g' = set_lastDay (lastDay g') (set_tradesToday (tradesToday g') g)
    /\ env g' = env g /\ connection g' = connection g
    /\ wallet g' = wallet g /\ TOKEN g' = TOKEN g /\ QUOTE g' = QUOTE g
    /\ INPUT g' = INPUT g /\ OUTPUT g' = OUTPUT g.
Proof.
  intros ws g g'. pose proof (same_constants_loop ws g) as H.
  fold g' in H. split; [exact H|]. rewrite H. repeat split.
Qed.

(** C7. Notification posting is best-effort: whatever the message and
    whatever becomes of the webhook request (it may be rejected), [discord]
    completes normally and leaves the program state alone; it performs at
    most the one webhook request, and none at all when
    [DISCORD_WEBHOOK_URL] is unset (or empty). *)
Theorem C7_discord_best_effort :
  forall (posted : completion Response) (msg : Notification) (g : Globals),
    outcome_of (discord posted msg g) = Normal tt
    /\ state_of (discord posted msg g) = g
    /\ trace_of (discord posted msg g) =
         match DISCORD_WEBHOOK_URL (env g) with
         | None => []
         | Some url => if is_empty url then [] else [EvWebhook url msg]
         end.
Proof.
  intros posted msg g. rewrite discord_run. repeat split.
Qed.

(** C8. When one of [RPC_URL], [PRIVATE_KEY_B58], [TOKEN_MINT],
    [QUOTE_MINT], [SIDE] is unset, the script writes the error line and
    exits with code 1, and does nothing else.  [AMOUNT_IN_BASE_UNITS] plays
    no part in that test, and a script whose five required variables are
    set does not exit there.  When the amount is unset, not numeric or not
    strictly positive, every call of [swapOnce] throws before any external
    call; an iteration that gets past the cap check therefore logs and
    reports that error and sleeps; and however long the loop runs it keeps
    completing its iterations, one sleep each, without any step of the
    call chain and without executing a swap or incrementing the counter.
    From the counter at [0], as the script starts it, and with a cap that
    [0] has not reached, every iteration is of that kind: the loop does
    nothing but log the error, report it and sleep. *)
Theorem C8_startup_and_amount_checks :
  (forall (process_env : gmap string string) (iw : InitWorld)
          (ws : list IterWorld),
     process_env !! "RPC_URL" = None
     \/ process_env !! "PRIVATE_KEY_B58" = None
     \/ process_env !! "TOKEN_MINT" = None
     \/ process_env !! "QUOTE_MINT" = None
     \/ process_env !! "SIDE" = None ->
     main process_env iw ws =
       ([EvConsoleErrorText "Missing required env vars."; EvExit 1],
        Exited 1))
  /\ (forall (process_env : gmap string string) (iw : InitWorld)
             (ws : list IterWorld),
        missing_required
          (destructure (delete "AMOUNT_IN_BASE_UNITS" process_env))
        = missing_required (destructure process_env)
        /\ (missing_required (destructure process_env) = false ->
            forall code, (main process_env iw ws).2 <> Exited code))
  /\ (forall g : Globals,
        amount_invalid (env g) ->
        (forall w : SwapWorld, swapOnce w g = ([], g, Throw amount_error))
        /\ (forall w : IterWorld,
              capped (day_check w g) = false ->
              loop_body w g =
                (EvConsoleError amount_error
                   :: (webhook_events g (SwapError (message amount_error))
                       ++ [sleep_event g])%list,
                 day_check w g, Normal tt))
        /\ (forall ws : list IterWorld,
              outcome_of (loop ws g) = Normal tt
              /\ sleeps (trace_of (loop ws g)) = length ws
              /\ steps (trace_of (loop ws g)) = []
              /\ (forall d, executed_on d ws g = 0)
              /\ (tradesToday (state_of (loop ws g)) = tradesToday g
                  \/ tradesToday (state_of (loop ws g)) = 0))
        /\ (tradesToday g = 0 ->
            int_ge 0 (daily_cap (env g)) = false ->
            forall ws : list IterWorld,
              trace_of (loop ws g)
              = concat (replicate (length ws)
                  (EvConsoleError amount_error
                     :: (webhook_events g (SwapError (message amount_error))
                         ++ [sleep_event g])%list)))).
Proof.
  split; [|split].
  - intros pe iw ws H. unfold main.
    assert (Hm : missing_required (destructure pe) = true).
    { unfold missing_required, destructure. cbn.
      destruct H as [->|[->|[->|[->| ->]]]]; cbn;
        rewrite ?orb_true_r; reflexivity. }
    by rewrite Hm.
  - intros pe iw ws. split.
    + unfold missing_required, destructure. cbn.
      by rewrite !lookup_delete_ne.
    + intros Hm code. unfold main. rewrite Hm.
      destruct (init (destructure pe) iw) as [g|err]; [|done].
      by destruct ((announce iw ;; loop ws) g) as [[t g'] [r|err]].
  - intros g H. split; [|split; [|split]].
    + intros w. apply swapOnce_invalid_amount. by apply amount_invalid_test.
    + intros w Hc.
      rewrite (loop_body_failed w g [] (day_check w g) amount_error Hc);
        [reflexivity|].
      apply swapOnce_invalid_amount. rewrite env_day_check.
      by apply amount_invalid_test.
    + intros ws. destruct (loop_invalid_amount ws g H) as (H1 & H2 & H3).
      repeat split; [apply loop_outcome|apply loop_sleeps|done..].
    + intros Hzero Hcap ws. by apply loop_invalid_amount_trace.
Qed.

Lemma C8_startup_and_amount_checks_witness :
  (let pe := delete "SIDE" sample_process_env in
   pe !! "SIDE" = None
   /\ main pe sample_init [iteration_at 1705312900000 good_swap] =
        ([EvConsoleErrorText "Missing required env vars."; EvExit 1],
         Exited 1))
  /\ (let g := sample_globals (<["AMOUNT_IN_BASE_UNITS" := "12 tokens"]>) in
      let ws := replicate 3 (iteration_at 1705312900000 good_swap) in
      amount_invalid (env g)
      /\ sleeps (trace_of (loop ws g)) = 3%nat
      /\ steps (trace_of (loop ws g)) = []
      /\ trace_of (loop ws g) = concat (replicate 3 (amount_error_round g))).
Proof.
  split.
  - intros pe. assert (H : pe !! "SIDE" = None) by reflexivity.
    split; [exact H|].
    apply (proj1 C8_startup_and_amount_checks). tauto.
  - intros g ws.
    assert (H : amount_invalid (env g)) by (right; left; reflexivity).
    split; [exact H|].
    destruct (proj2 (proj2 C8_startup_and_amount_checks) g H)
      as (_ & _ & Hl & Ht).
    destruct (Hl ws) as (_ & Hsl & Hst & _).
    split; [exact Hsl|]. split; [exact Hst|].
    exact (Ht eq_refl eq_refl ws).
Defined.

(** C9. The direction of the swap depends on [SIDE] through the test
    [SIDE === 'sell'] alone.  When [SIDE] is exactly [sell], [INPUT] is the
    key made from [TOKEN_MINT] and [OUTPUT] the key made from
    [QUOTE_MINT]; for every other value it is the other way round (a buy).
    Every quote request and every execution notice of a run names the
    mints in that direction. *)
Theorem C9_swap_direction :
  forall (process_env : gmap string string) (iw : InitWorld)
         (ws : list IterWorld),
    let sell := bool_decide (process_env !! "SIDE" = Some "sell") in
    let input := if sell then "TOKEN_MINT" else "QUOTE_MINT" in
    let output := if sell then "QUOTE_MINT" else "TOKEN_MINT" in
    (forall g : Globals,
       init (destructure process_env) iw = Normal g ->
       process_env !! input = Some (toBase58 (INPUT g))
       /\ process_env !! output = Some (toBase58 (OUTPUT g)))
    /\ Forall (fun ev =>
                 match direction ev with
                 | Some (i, o) =>
                     process_env !! input = Some i
                     /\ process_env !! output = Some o
                 | None => True
                 end)
         (main process_env iw ws).1.
Proof.
  intros pe iw ws sell input output.
  assert (Hinit : forall g, init (destructure pe) iw = Normal g ->
            pe !! input = Some (toBase58 (INPUT g))
            /\ pe !! output = Some (toBase58 (OUTPUT g))
            /\ env g = destructure pe).
  { intros g. unfold init, construct, is_sell.
    unfold mbind, completion_bind, mret, completion_ret. cbn.
    assert (Hsell : match pe !! "SIDE" with
                    | Some s => String.eqb s "sell"
                    | None => false
                    end = sell).
    { subst sell. destruct (pe !! "SIDE") as [s|] eqn:E.
      - destruct (String.eqb_spec s "sell") as [->|Hne].
        + by rewrite bool_decide_eq_true_2.
        + rewrite bool_decide_eq_false_2; [done|]. congruence.
      - by rewrite bool_decide_eq_false_2. }
    rewrite Hsell. subst input output.
    repeat (case_match; simplify_eq/=); intros [= <-]; cbn; done. }
  split; [intros g Hg; destruct (Hinit g Hg) as (? & ? & _); done|].
  unfold main. destruct (missing_required (destructure pe)).
  { cbn. repeat constructor. }
  destruct (init (destructure pe) iw) as [g|err] eqn:Hg; [|constructor].
  destruct (Hinit g eq_refl) as (Hi & Ho & He).
  assert (Hall : Forall (directed (toBase58 (INPUT g)) (toBase58 (OUTPUT g)))
                   (trace_of ((announce iw ;; loop ws) g))).
  { unfold announce. unfold_M. cbn.
    destruct (balance iw) as [bal|e]; cbn; [|repeat constructor].
    rewrite discord_run. cbn.
    pose proof (loop_directed ws g) as Hl.
    destruct (loop ws g) as [[t g'] r]. unfold trace_of in *. cbn in *.
    constructor; [done|]. constructor; [done|].
    apply Forall_app. split; [|done]. by apply directed_webhook. }
  assert (Hgoal : Forall (fun ev =>
                    match direction ev with
                    | Some (i, o) =>
                        pe !! input = Some i /\ pe !! output = Some o
                    | None => True
                    end) (trace_of ((announce iw ;; loop ws) g))).
  { eapply Forall_impl; [exact Hall|]. intros ev. unfold directed.
    destruct (direction ev) as [[i o]|]; [|done]. by intros [= -> ->]. }
  unfold trace_of in Hgoal.
  destruct ((announce iw ;; loop ws) g) as [[t g'] [r|err]]; exact Hgoal.
Qed.

Lemma C9_swap_direction_witness :
  (let g := sample_globals id in
   sample_process_env !! "TOKEN_MINT" = Some (toBase58 (INPUT g))
   /\ sample_process_env !! "QUOTE_MINT" = Some (toBase58 (OUTPUT g)))
  /\ (let pe := <["SIDE" := "Sell"]> sample_process_env in
      let g := sample_globals (<["SIDE" := "Sell"]>) in
      pe !! "QUOTE_MINT" = Some (toBase58 (INPUT g))
      /\ pe !! "TOKEN_MINT" = Some (toBase58 (OUTPUT g))).
Proof.
  split.
  - exact (proj1 (C9_swap_direction sample_process_env sample_init [])
             (sample_globals id) eq_refl).
  - exact (proj1 (C9_swap_direction (<["SIDE" := "Sell"]> sample_process_env)
                    sample_init [])
             (sample_globals (<["SIDE" := "Sell"]>)) eq_refl).
Defined.

(** C10. The counter moves only upon a returned [swapOnce]: after an
    iteration [tradesToday] is the value it had at the cap check (its old
    value, or [0] after a day change), incremented exactly when the
    iteration's swap was confirmed.  In particular, when the [try] block
    throws, which in a started script means that a step of [swapOnce]
    threw, the counter keeps the value of the cap check. *)
Theorem C10_counter_update_atomic :
  forall (w : IterWorld) (g : Globals),
    started g ->
    tradesToday (day_check w g) =
      (if getUTCDate (now w) =? lastDay g then tradesToday g else 0)
    /\ tradesToday (state_of (loop_body w g)) =
         (if swap_executed w (trace_of (loop_body w g))
          then succ (tradesToday (day_check w g))
          else tradesToday (day_check w g))
    /\ match attempt w g with
       | (ta, ga, Throw e) =>
           swapOnce (swap w) (day_check w g) = (ta, day_check w g, Throw e)
           /\ swap_executed w (trace_of (loop_body w g)) = false
           /\ tradesToday ga = tradesToday (day_check w g)
           /\ tradesToday (state_of (loop_body w g))
              = tradesToday (day_check w g)
       | (_, _, Normal _) => True
       end.
Proof.
  intros w g Hst. split; [|split].
  - unfold day_check. by case_match.
  - rewrite loop_body_state. by case_match.
  - pose proof (loop_body_executed w g) as Hex.
    pose proof (loop_body_state w g) as Hstate.
    destruct (started_side g Hst) as [s Hs].
    destruct (attempt_inv w g)
      as [[Hc ->]|[[Hc (ts & e & Hsw & ->)]|[Hc (ts & r & Hsw & ->)]]];
      [done| |by rewrite Hs].
    rewrite Hsw in Hex. unfold outcome_of in Hex. cbn in Hex.
    rewrite andb_false_r in Hex. rewrite Hex in Hstate.
    by rewrite Hstate, Hex.
Qed.

Lemma C10_counter_update_atomic_witness :
  let w := iteration_at 1705312900000 failing_swap in
  let g := set_tradesToday 7 (sample_globals id) in
  started g
  /\ (exists ta ga e, attempt w g = (ta, ga, Throw e))
  /\ tradesToday (state_of (loop_body w g)) = 7.
Proof.
  intros w g.
  assert (Hst : started g) by reflexivity.
  split; [exact Hst|]. split; [by eexists _, _, _|].
  destruct (C10_counter_update_atomic w g Hst) as (_ & H & _).
  rewrite H. reflexivity.
Defined.

(* ===================================================================== *)
(** * Further properties of the script *)
(* ===================================================================== *)

(** ** Counting events *)

Lemma count_app p t1 t2 : count p (t1 ++ t2) = (count p t1 + count p t2)%nat.
Proof. unfold count. by rewrite filter_app, length_app. Qed.

Lemma count_cons p ev t :
  count p (ev :: t) = ((if p ev then 1 else 0) + count p t)%nat.
Proof.
  unfold count. rewrite filter_cons.
  destruct (p ev); by case_decide.
Qed.

Lemma count_none p t :
  Forall (fun ev => p ev = false) t -> count p t = 0%nat.
Proof.
  induction 1 as [|ev t Hev _ IH]; [reflexivity|].
  by rewrite count_cons, Hev, IH.
Qed.

(** The events of [swapOnce] are steps of the chain. *)
Lemma swapOnce_chain_events w g :
  Forall (fun ev => is_Some (step_of ev)) (trace_of (swapOnce w g)).
Proof. unfold trace_of. swap_cases; repeat constructor; by eexists. Qed.

Lemma count_chain_events p t :
  (forall ev, is_Some (step_of ev) -> p ev = false) ->
  Forall (fun ev => is_Some (step_of ev)) t ->
  count p t = 0%nat.
Proof.
  intros Hp Ht. apply count_none. eapply Forall_impl; [exact Ht|]. exact Hp.
Qed.

Lemma notice_count_webhook q g msg :
  notice_count q (webhook_events g msg)
  = if webhook_configured g && q msg then 1%nat else 0%nat.
Proof.
  unfold notice_count, webhook_events, webhook_configured, falsy.
  destruct (DISCORD_WEBHOOK_URL (env g)) as [url|]; [|reflexivity].
  destruct (is_empty url); [reflexivity|].
  rewrite count_cons. cbn. by destruct (q msg).
Qed.

Lemma notice_count_app q t1 t2 :
  notice_count q (t1 ++ t2)
  = (notice_count q t1 + notice_count q t2)%nat.
Proof. apply count_app. Qed.

Lemma notice_count_chain q t :
  Forall (fun ev => is_Some (step_of ev)) t -> notice_count q t = 0%nat.
Proof.
  apply count_chain_events. intros ev [s Hs]. by destruct ev.
Qed.

Lemma swaps_logged_chain t :
  Forall (fun ev => is_Some (step_of ev)) t -> swaps_logged t = 0%nat.
Proof.
  apply count_chain_events. intros ev [s Hs]. by destruct ev.
Qed.

Lemma swaps_logged_webhook g msg : swaps_logged (webhook_events g msg) = 0%nat.
Proof. unfold webhook_events. by repeat case_match. Qed.

(** The trace of [swapOnce] and its result, in the state of the cap check. *)
Lemma swapOnce_at_cap_check w g :
  swapOnce (swap w) (day_check w g)
  = (trace_of (swapOnce (swap w) (day_check w g)), day_check w g,
     outcome_of (swapOnce (swap w) (day_check w g))).
Proof.
  destruct (swapOnce (swap w) (day_check w g)) as [[ts g1] r] eqn:Hs.
  by rewrite (swapOnce_frame _ _ _ _ _ Hs).
Qed.

(** An iteration hands exactly one message to [discord]. *)
Lemma loop_body_notices q w g :
  notice_count q (trace_of (loop_body w g))
  = if webhook_configured g && q (notice w g) then 1%nat else 0%nat.
Proof.
  pose proof (swapOnce_chain_events (swap w) (day_check w g)) as Hch.
  unfold notice.
  destruct (loop_body_inv w g)
    as [[Hc ->]|[[Hc (ts & e & Hs & ->)]|[Hc (ts & r & Hs & ->)]]];
    rewrite Hc; rewrite ?Hs in Hch |- *; unfold trace_of, outcome_of in *;
    cbn [fst snd] in *.
  - rewrite notice_count_app, notice_count_webhook.
    destruct (webhook_configured g && q LimitReached); reflexivity.
  - rewrite notice_count_app, (notice_count_chain q ts Hch).
    change (EvConsoleError e :: ?l) with ([EvConsoleError e] ++ l)%list.
    rewrite !notice_count_app, notice_count_webhook.
    destruct (webhook_configured g && _); reflexivity.
  - rewrite notice_count_app, (notice_count_chain q ts Hch).
    destruct (SIDE (env g)) as [s|].
    + rewrite !notice_count_app, notice_count_webhook.
      destruct (webhook_configured g && _); reflexivity.
    + change (EvConsoleError ?e :: ?l) with ([EvConsoleError e] ++ l)%list.
      rewrite !notice_count_app, notice_count_webhook.
      destruct (webhook_configured g && _); reflexivity.
Qed.

Lemma loop_body_swaps_logged w g :
  started g ->
  swaps_logged (trace_of (loop_body w g))
  = if swap_executed w (trace_of (loop_body w g)) then 1%nat else 0%nat.
Proof.
  intros Hst. destruct (started_side g Hst) as [s Hside].
  rewrite loop_body_executed.
  pose proof (swapOnce_chain_events (swap w) (day_check w g)) as Hch.
  destruct (loop_body_inv w g)
    as [[Hc ->]|[[Hc (ts & e & Hs & ->)]|[Hc (ts & r & Hs & ->)]]];
    rewrite Hc; rewrite ?Hs in Hch |- *; unfold trace_of, outcome_of in *;
    cbn [fst snd negb andb is_normal] in *.
  - unfold swaps_logged. by rewrite count_app, swaps_logged_webhook.
  - unfold swaps_logged. rewrite count_app.
    fold (swaps_logged ts). rewrite (swaps_logged_chain ts Hch).
    rewrite count_cons, count_app. fold (swaps_logged (webhook_events g
      (SwapError (error_text e)))). by rewrite swaps_logged_webhook.
  - rewrite Hside. unfold swaps_logged. rewrite !count_app.
    fold (swaps_logged ts). rewrite (swaps_logged_chain ts Hch).
    fold (swaps_logged (webhook_events g
      (Executed (toUpperCase s) (inMint r) (outMint r) (amount r) (sig r)))).
    by rewrite swaps_logged_webhook.
Qed.

Lemma started_loop_body w g : started g -> started (state_of (loop_body w g)).
Proof.
  unfold started.
  by rewrite (same_constants_env _ _ (same_constants_loop_body w g)).
Qed.

Lemma webhook_configured_loop_body w g :
  webhook_configured (state_of (loop_body w g)) = webhook_configured g.
Proof.
  unfold webhook_configured.
  by rewrite (same_constants_env _ _ (same_constants_loop_body w g)).
Qed.

Lemma notice_executed w g :
  started g ->
  is_executed_notice (notice w g)
  = swap_executed w (trace_of (loop_body w g)).
Proof.
  intros Hst. destruct (started_side g Hst) as [s Hside].
  rewrite loop_body_executed. unfold notice. rewrite Hside.
  destruct (capped (day_check w g)); [reflexivity|].
  by destruct (outcome_of (swapOnce (swap w) (day_check w g))).
Qed.

(** ** Start-up *)

Lemma falsy_spec v : falsy v = true <-> v = None \/ v = Some "".
Proof.
  destruct v as [[|c r]|]; cbn; split; try tauto; intros H;
    try done; destruct H; done.
Qed.

Lemma missing_required_spec (process_env : gmap string string) :
  missing_required (destructure process_env) = true
  <-> Exists (fun k => process_env !! k = None \/ process_env !! k = Some "")
        required_vars.
Proof.
  unfold missing_required, destructure, required_vars. cbn.
  rewrite !orb_true_iff, !falsy_spec, !Exists_cons, Exists_nil. tauto.
Qed.

Lemma announce_run iw g :
  (announce iw) g =
    match balance iw with
    | Normal bal => (announce_trace g bal, g, Normal tt)
    | Throw e => ([EvGetBalance (toBase58 (publicKey (wallet g)))], g, Throw e)
    end.
Proof.
  unfold announce, announce_trace. unfold_M.
  destruct (balance iw) as [bal|e]; cbn; [|reflexivity].
  by rewrite discord_run.
Qed.

(** The script from its initialised state on. *)
Lemma entry_run iw ws g :
  (announce iw ;; loop ws) g =
    match balance iw with
    | Normal bal =>
        ((announce_trace g bal ++ trace_of (loop ws g))%list,
         state_of (loop ws g), Normal tt)
    | Throw e => ([EvGetBalance (toBase58 (publicKey (wallet g)))], g, Throw e)
    end.
Proof.
  unfold mbind at 1, M_bind. rewrite announce_run.
  destruct (balance iw) as [bal|e]; [|reflexivity].
  pose proof (loop_outcome ws g) as Ho.
  destruct (loop ws g) as [[t g'] r]. unfold outcome_of in Ho. cbn in Ho.
  by subst r.
Qed.

(** X1. The script stops at line 27 exactly when one of the five required
    variables is unset or is the empty string: it then writes the error
    line, exits with code 1 and does nothing else; with the five variables
    set and non-empty it never exits, whatever happens afterwards. *)
Theorem X1_exit_iff_required_missing :
  forall (process_env : gmap string string) (iw : InitWorld)
         (ws : list IterWorld),
    let missing :=
      Exists (fun k => process_env !! k = None \/ process_env !! k = Some "")
        required_vars in
    (missing -> main process_env iw ws = (exit_trace, Exited 1))
    /\ ((exists code, (main process_env iw ws).2 = Exited code) -> missing).
Proof.
  intros pe iw ws missing. subst missing.
  rewrite <- missing_required_spec. unfold main. split.
  - by intros ->.
  - intros [code H]. destruct (missing_required (destructure pe)); [done|].
    destruct (init (destructure pe) iw) as [g|err]; [|done].
    rewrite entry_run in H. by destruct (balance iw).
Qed.

Lemma X1_exit_iff_required_missing_witness :
  let pe := <["TOKEN_MINT" := ""]> sample_process_env in
  Exists (fun k => pe !! k = None \/ pe !! k = Some "") required_vars
  /\ main pe sample_init [iteration_at 1705312900000 good_swap]
     = (exit_trace, Exited 1).
Proof.
  intros pe.
  assert (H : Exists (fun k => pe !! k = None \/ pe !! k = Some "")
                required_vars).
  { unfold required_vars. do 2 apply Exists_cons_tl. apply Exists_cons_hd.
    by right. }
  split; [exact H|].
  exact (proj1 (X1_exit_iff_required_missing pe sample_init
                  [iteration_at 1705312900000 good_swap]) H).
Defined.

(** X2. The script crashes only before its loop, and silently: either a
    constructor of the initialisation threw, and nothing at all was done,
    or the balance request was rejected, and that request is the only
    thing done.  No message is handed to the webhook in either case. *)
Theorem X2_crash_only_at_startup :
  forall (process_env : gmap string string) (iw : InitWorld)
         (ws : list IterWorld) (t : list Event) (e : error),
    main process_env iw ws = (t, Crashed e) ->
    (init (destructure process_env) iw = Throw e /\ t = [])
    \/ (exists g,
          init (destructure process_env) iw = Normal g
          /\ balance iw = Throw e
          /\ t = [EvGetBalance (toBase58 (publicKey (wallet g)))]).
Proof.
  intros pe iw ws t e. unfold main.
  destruct (missing_required (destructure pe)); [done|].
  destruct (init (destructure pe) iw) as [g|err].
  - rewrite entry_run. destruct (balance iw) as [bal|err]; [done|].
    intros [= <- <-]. right. by exists g.
  - intros [= <- <-]. by left.
Qed.

Lemma X2_crash_only_at_startup_witness :
  let iw := {| connection_rejected := None;
               wallet_made := Throw (new_Error "bad secret key size");
               token_rejected := None; quote_rejected := None;
               start_time := 1705312800000; balance := Normal 0;
               posted_online := sample_response JNull |} in
  main sample_process_env iw [iteration_at 1705312900000 good_swap]
  = ([], Crashed (new_Error "bad secret key size"))
  /\ init (destructure sample_process_env) iw
     = Throw (new_Error "bad secret key size").
Proof.
  intros iw.
  assert (H : main sample_process_env iw
                [iteration_at 1705312900000 good_swap]
              = ([], Crashed (new_Error "bad secret key size")))
    by reflexivity.
  split; [exact H|].
  destruct (X2_crash_only_at_startup _ _ _ _ _ H) as [[Hi _]|(g & Hi & _)].
  - exact Hi.
  - discriminate Hi.
Defined.

(** X3. Once the required variables are there, the initialisation has
    gone through and the balance request has resolved, the script is in
    its loop for good: it has asked for the balance, logged it, handed the
    "online" message to [discord], and then run the iterations from the
    initialised state; it neither exits nor crashes. *)
Theorem X3_started_script_stays_in_loop :
  forall (process_env : gmap string string) (iw : InitWorld)
         (ws : list IterWorld) (g : Globals) (bal : Z),
    missing_required (destructure process_env) = false ->
    init (destructure process_env) iw = Normal g ->
    balance iw = Normal bal ->
    main process_env iw ws =
      ((announce_trace g bal ++ trace_of (loop ws g))%list,
       Looping (state_of (loop ws g)))
    /\ tradesToday g = 0
    /\ lastDay g = getUTCDate (start_time iw)
    /\ env g = destructure process_env.
Proof.
  intros pe iw ws g bal Hm Hi Hb. split.
  - unfold main. by rewrite Hm, Hi, entry_run, Hb.
  - revert Hi. unfold init, construct.
    unfold mbind, completion_bind, mret, completion_ret.
    repeat (case_match; simplify_eq/=); by intros [= <-].
Qed.

Lemma X3_started_script_stays_in_loop_witness :
  let ws := [iteration_at 1705312900000 good_swap;
             iteration_at 1705314100000 failing_swap] in
  let g := sample_globals id in
  missing_required (destructure sample_process_env) = false
  /\ init (destructure sample_process_env) sample_init = Normal g
  /\ balance sample_init = Normal 5000000000
  /\ main sample_process_env sample_init ws =
       ((announce_trace g 5000000000 ++ trace_of (loop ws g))%list,
        Looping (state_of (loop ws g))).
Proof.
  intros ws g.
  assert (H1 : missing_required (destructure sample_process_env) = false)
    by reflexivity.
  assert (H2 : init (destructure sample_process_env) sample_init = Normal g)
    by reflexivity.
  assert (H3 : balance sample_init = Normal 5000000000) by reflexivity.
  repeat (split; [assumption|]).
  exact (proj1 (X3_started_script_stays_in_loop _ _ ws _ _ H1 H2 H3)).
Defined.

(** ** Notifications and log lines of a run *)

(** X4. Every iteration hands one message to [discord], whatever its
    outcome: with a webhook configured a run of [n] iterations makes
    exactly [n] webhook requests, and without one it makes none. *)
Theorem X4_one_notification_per_iteration :
  forall (ws : list IterWorld) (g : Globals),
    notice_count (fun _ => true) (trace_of (loop ws g))
    = if webhook_configured g then length ws else 0%nat.
Proof.
  intros ws. induction ws as [|w ws IH]; intros g.
  - by destruct (webhook_configured g).
  - rewrite loop_cons_trace, notice_count_app, loop_body_notices, IH,
      webhook_configured_loop_body.
    by destruct (webhook_configured g).
Qed.

(** X5. In a started script the "Swap ok" lines of a run are as many as
    the swaps it executed, and so are its "Executed" notices when a
    webhook is configured: every executed swap is logged and announced
    once, and nothing else is logged or announced as a swap. *)
Theorem X5_executed_swaps_logged_and_announced :
  forall (ws : list IterWorld) (g : Globals),
    started g ->
    swaps_logged (trace_of (loop ws g)) = executed_total ws g
    /\ notice_count is_executed_notice (trace_of (loop ws g))
       = if webhook_configured g then executed_total ws g else 0%nat.
Proof.
  intros ws. induction ws as [|w ws IH]; intros g Hst.
  - split; [reflexivity|]. by destruct (webhook_configured g).
  - destruct (IH _ (started_loop_body w g Hst)) as [IH1 IH2].
    rewrite loop_cons_trace. cbn [executed_total]. split.
    + unfold swaps_logged in *. rewrite count_app.
      fold (swaps_logged (trace_of (loop_body w g))).
      by rewrite (loop_body_swaps_logged w g Hst), IH1.
    + rewrite notice_count_app, loop_body_notices, IH2,
        webhook_configured_loop_body, (notice_executed w g Hst).
      destruct (webhook_configured g); [|reflexivity].
      by destruct (swap_executed w (trace_of (loop_body w g))).
Qed.

Lemma X5_executed_swaps_logged_and_announced_witness :
  let ws := [iteration_at 1705312900000 good_swap;
             iteration_at 1705314100000 failing_swap;
             iteration_at 1705315300000 good_swap] in
  let g := sample_globals id in
  started g
  /\ swaps_logged (trace_of (loop ws g)) = 2%nat
  /\ executed_total ws g = 2%nat.
Proof.
  intros ws g. assert (Hst : started g) by reflexivity.
  split; [exact Hst|].
  assert (He : executed_total ws g = 2%nat) by reflexivity.
  split; [|exact He].
  rewrite <- He.
  exact (proj1 (X5_executed_swaps_logged_and_announced ws g Hst)).
Defined.

(** ** The parameters of the requests *)

Lemma swapOnce_requests w g :
  Forall (request_ok g) (trace_of (swapOnce w g)).
Proof.
  unfold trace_of. swap_cases; repeat constructor;
    repeat match goal with
           | H : _ || _ = false |- _ =>
               apply orb_false_iff in H as [? ?]
           | H : negb _ = false |- _ => apply negb_false_iff in H
           end; try done.
  all: cbn; set_solver.
Qed.

Lemma request_ok_webhook g' g msg :
  Forall (request_ok g') (webhook_events g msg).
Proof. unfold webhook_events. repeat case_match; by repeat constructor. Qed.

Lemma request_ok_same_constants g g' ev :
  same_constants g g' -> request_ok g' ev -> request_ok g ev.
Proof. unfold same_constants. intros ->. by destruct ev. Qed.

Lemma loop_body_requests w g :
  Forall (request_ok g) (trace_of (loop_body w g)).
Proof.
  pose proof (swapOnce_requests (swap w) (day_check w g)) as Hsw.
  assert (Hts : Forall (request_ok g)
                  (trace_of (swapOnce (swap w) (day_check w g)))).
  { eapply Forall_impl; [exact Hsw|]. intros ev.
    apply request_ok_same_constants, same_constants_day_check. }
  clear Hsw.
  destruct (loop_body_inv w g)
    as [[Hc ->]|[[Hc (ts & e & Hs & ->)]|[Hc (ts & r & Hs & ->)]]];
    rewrite ?Hs in Hts; unfold trace_of in *; cbn [fst] in *.
  - apply Forall_app. split; [apply request_ok_webhook|by repeat constructor].
  - apply Forall_app. split; [done|]. constructor; [done|].
    apply Forall_app. split; [apply request_ok_webhook|by repeat constructor].
  - apply Forall_app. split; [done|]. apply Forall_app.
    split; [|by repeat constructor].
    destruct (SIDE (env g)).
    + apply Forall_app.
      split; [apply request_ok_webhook|by repeat constructor].
    + constructor; [done|]. apply request_ok_webhook.
Qed.

(** X6. Every request of a run carries the configured parameters: a quote
    request asks for the amount [Number(AMOUNT_IN_BASE_UNITS)], which is
    then finite and positive, with the slippage
    [String(MAX_SLIPPAGE_BPS ?? 50)] taken over as it is; a build request
    names the wallet; the wallet is the signer, and is among the signers
    of every transaction submitted. *)
Theorem X6_requests_carry_configuration :
  forall (ws : list IterWorld) (g : Globals),
    Forall (request_ok g) (trace_of (loop ws g)).
Proof.
  intros ws. induction ws as [|w ws IH]; intros g; [constructor|].
  rewrite loop_cons_trace. apply Forall_app.
  split; [apply loop_body_requests|].
  eapply Forall_impl; [apply IH|]. intros ev.
  apply request_ok_same_constants, same_constants_loop_body.
Qed.

(** ** The answer to the confirmation call *)

Lemma swapOnce_confirmation_status w s1 s2 g :
  swapOnce (swap (with_confirmation (Normal s1) w)) g
  = swapOnce (swap (with_confirmation (Normal s2) w)) g.
Proof.
  unfold swapOnce, take_swapTransaction. unfold_M. cbn.
  repeat (case_match; simplify_eq/=); reflexivity.
Qed.

(** X7. The script does not look at what the confirmation call resolves
    with: an iteration whose confirmation resolves with an error status
    (the transaction failed on chain) does exactly what it does when the
    status is clean, and counts as an executed swap all the same. *)
Theorem X7_confirmation_status_ignored :
  forall (w : IterWorld) (g : Globals) (s1 s2 : option string),
    loop_body (with_confirmation (Normal s1) w) g
    = loop_body (with_confirmation (Normal s2) w) g
    /\ swap_executed (with_confirmation (Normal s1) w)
         (trace_of (loop_body (with_confirmation (Normal s1) w) g))
       = swap_executed (with_confirmation (Normal s2) w)
           (trace_of (loop_body (with_confirmation (Normal s2) w) g)).
Proof.
  intros w g s1 s2.
  assert (H : loop_body (with_confirmation (Normal s1) w) g
              = loop_body (with_confirmation (Normal s2) w) g).
  { set (w1 := with_confirmation (Normal s1) w).
    set (w2 := with_confirmation (Normal s2) w).
    destruct (capped (day_check w1 g)) eqn:Hc.
    - by rewrite (loop_body_capped w1 g Hc), (loop_body_capped w2 g Hc).
    - destruct (swapOnce (swap w1) (day_check w1 g))
        as [[ts g1] [r|e]] eqn:Hs1;
        pose proof Hs1 as Hs2; subst w1;
        rewrite (swapOnce_confirmation_status w s1 s2) in Hs2.
      + by rewrite (loop_body_traded _ g ts g1 r Hc Hs1),
          (loop_body_traded w2 g ts g1 r Hc Hs2).
      + by rewrite (loop_body_failed _ g ts g1 e Hc Hs1),
          (loop_body_failed w2 g ts g1 e Hc Hs2). }
  split; [exact H|]. rewrite H. reflexivity.
Qed.

(** ** An answer without a route *)

Lemma first_route_none j :
  j = JNull \/ get_named "data" j = None \/ get_named "data" j = Some JNull
  \/ get_named "data" j = Some (JArray []) ->
  truthy (first_route j) = false.
Proof.
  unfold first_route.
  intros [->|[H|[H|H]]]; [reflexivity| | |]; rewrite H; by destruct j.
Qed.

Lemma quote_event_day_check w g : quote_event (day_check w g) = quote_event g.
Proof.
  unfold quote_event.
  destruct (same_constants_mints _ _ (same_constants_day_check w g))
    as [-> ->].
  by rewrite env_day_check.
Qed.

(** X8. When the quote service answers OK but with nothing to take a
    route from (the body is [null], has no [data], or its [data] is [null]
    or an empty array), the iteration stops after that one request: it
    logs and reports "No route found (insufficient liquidity?)", builds
    and signs nothing, leaves the counter at its cap-check value and
    sleeps. *)
Theorem X8_no_route_found :
  forall (w : IterWorld) (g : Globals) (res : Response) (j : json),
    amount_valid (env g) ->
    capped (day_check w g) = false ->
    quote_response (swap w) = Normal res ->
    ok res = true ->
    json_body res = Normal j ->
    j = JNull \/ get_named "data" j = None \/ get_named "data" j = Some JNull
    \/ get_named "data" j = Some (JArray []) ->
    loop_body w g =
      (quote_event g :: EvConsoleError no_route_error
         :: (webhook_events g
               (SwapError "No route found (insufficient liquidity?)")
             ++ [sleep_event g])%list,
       day_check w g, Normal tt).
Proof.
  intros w g res j Hv Hc Hq Hok Hj Hshape.
  apply first_route_none in Hshape.
  assert (Hs : swapOnce (swap w) (day_check w g)
               = ([quote_event g], day_check w g, Throw no_route_error)).
  { rewrite <- (quote_event_day_check w g).
    unfold amount_valid in Hv. rewrite <- (env_day_check w g) in Hv.
    unfold swapOnce, quote_event. unfold_M.
    rewrite Hv, Hq. cbn. rewrite Hok. cbn. rewrite Hj. cbn.
    by rewrite Hshape. }
  by rewrite (loop_body_failed w g _ _ _ Hc Hs).
Qed.

Lemma X8_no_route_found_witness :
  let res := {| ok := true; statusText := "OK";
                json_body := Normal (JObject [("data", JArray [])]) |} in
  let sw := {| quote_response := Normal res;
               swap_response := swap_response good_swap;
               deserialized := deserialized good_swap;
               signing := Normal tt; sent := sent good_swap;
               confirmation := confirmation good_swap |} in
  let w := iteration_at 1705312900000 sw in
  let g := sample_globals id in
  amount_valid (env g) /\ capped (day_check w g) = false
  /\ steps (trace_of (loop_body w g)) = [Quote]
  /\ tradesToday (state_of (loop_body w g)) = 0.
Proof.
  intros res sw w g.
  assert (Hv : amount_valid (env g)) by reflexivity.
  assert (Hc : capped (day_check w g) = false) by reflexivity.
  split; [exact Hv|]. split; [exact Hc|].
  rewrite (X8_no_route_found w g res (JObject [("data", JArray [])])
             Hv Hc eq_refl eq_refl eq_refl);
    [by split|].
  right; right; right. reflexivity.
Defined.

(** ** Caps that are never reached, and caps that always are *)

Lemma notice_limit w g :
  is_limit_notice (notice w g) = capped (day_check w g).
Proof.
  unfold notice. destruct (capped (day_check w g)); [reflexivity|].
  by repeat case_match.
Qed.

(** X9. A cap that is [NaN] (a [DAILY_BUDGET_TRADES] that is not numeric)
    or [Infinity] is never reached: a run posts no "Daily trade limit
    reached" notice, and with a valid amount every iteration makes its
    swap attempt, so that nothing limits the trades of a day. *)
Theorem X9_unreachable_cap_never_limits :
  forall (ws : list IterWorld) (g : Globals),
    daily_cap (env g) = NaN \/ daily_cap (env g) = Infinity false ->
    notice_count is_limit_notice (trace_of (loop ws g)) = 0%nat
    /\ (amount_valid (env g) ->
        attempts (trace_of (loop ws g)) = length ws).
Proof.
  intros ws g Hcap.
  assert (Hnever : forall g', env g' = env g -> capped g' = false).
  { intros g' He. unfold capped. rewrite He. by destruct Hcap as [-> | ->]. }
  clear Hcap. revert g Hnever.
  induction ws as [|w ws IH]; intros g Hnever; [by split|].
  assert (Hc : capped (day_check w g) = false)
    by (apply Hnever, env_day_check).
  pose proof (same_constants_env _ _ (same_constants_loop_body w g)) as He.
  destruct (IH (state_of (loop_body w g))) as [IH1 IH2].
  { intros g' He'. apply Hnever. by rewrite He'. }
  rewrite loop_cons_trace. split.
  - by rewrite notice_count_app, loop_body_notices, notice_limit, Hc,
      andb_false_r, IH1.
  - intros Hv. rewrite attempts_app, IH2 by (by rewrite He).
    unfold attempts at 1. rewrite loop_body_steps, Hc.
    fold (attempts (trace_of (swapOnce (swap w) (day_check w g)))).
    rewrite swapOnce_valid_attempts; [reflexivity|]. by rewrite env_day_check.
Qed.

Lemma X9_unreachable_cap_never_limits_witness :
  let g := sample_globals (<["DAILY_BUDGET_TRADES" := "unlimited"]>) in
  let ws := replicate 200 (iteration_at 1705312900000 good_swap) in
  daily_cap (env g) = NaN
  /\ amount_valid (env g)
  /\ attempts (trace_of (loop ws g)) = 200%nat.
Proof.
  intros g ws.
  assert (Hc : daily_cap (env g) = NaN) by reflexivity.
  assert (Hv : amount_valid (env g)) by reflexivity.
  split; [exact Hc|]. split; [exact Hv|].
  rewrite (proj2 (X9_unreachable_cap_never_limits ws g (or_introl Hc)) Hv).
  apply length_replicate.
Defined.

Lemma int_ge_nonneg c n : int_ge 0 c = true -> 0 <= n -> int_ge n c = true.
Proof.
  unfold int_ge. destruct c as [|negative|m k]; try done.
  intros H Hn. apply Z.leb_le in H. apply Z.leb_le.
  assert (0 < 2 ^ Z.of_N k) by (apply Z.pow_pos_nonneg; lia). nia.
Qed.

(** X10. A cap that [0] has reached (zero, a negative number, or the
    empty string, which [Number] reads as [0]) stops all trading: from a
    counter that is not negative every iteration only hands the limit
    notice to [discord] and sleeps, and no swap is ever attempted. *)
Theorem X10_cap_at_most_zero_never_trades :
  forall (ws : list IterWorld) (g : Globals),
    int_ge 0 (daily_cap (env g)) = true ->
    0 <= tradesToday g ->
    trace_of (loop ws g)
    = concat (replicate (length ws)
        (webhook_events g LimitReached ++ [sleep_event g])%list)
    /\ executed_total ws g = 0%nat.
Proof.
  intros ws. induction ws as [|w ws IH]; intros g Hcap Hpos; [by split|].
  assert (Hc : capped (day_check w g) = true).
  { unfold capped. rewrite env_day_check. apply int_ge_nonneg; [exact Hcap|].
    destruct (tradesToday_day_check w g) as [-> | ->]; lia. }
  pose proof (loop_body_capped w g Hc) as Hrun.
  assert (Hex : swap_executed w (trace_of (loop_body w g)) = false).
  { rewrite loop_body_executed, Hc. reflexivity. }
  destruct (IH (day_check w g)) as [IH1 IH2].
  { by rewrite env_day_check. }
  { destruct (tradesToday_day_check w g) as [-> | ->]; lia. }
  rewrite loop_cons_trace. cbn [executed_total]. rewrite Hex, Hrun.
  unfold trace_of at 1, state_of. cbn [fst snd length replicate concat].
  rewrite IH1, IH2. split; [|reflexivity].
  unfold webhook_events, sleep_event. by rewrite env_day_check.
Qed.

Lemma X10_cap_at_most_zero_never_trades_witness :
  let g := sample_globals (<["DAILY_BUDGET_TRADES" := ""]>) in
  let ws := replicate 3 (iteration_at 1705312900000 good_swap) in
  int_ge 0 (daily_cap (env g)) = true
  /\ 0 <= tradesToday g
  /\ steps (trace_of (loop ws g)) = []
  /\ executed_total ws g = 0%nat.
Proof.
  intros g ws.
  assert (Hc : int_ge 0 (daily_cap (env g)) = true) by reflexivity.
  assert (Hp : 0 <= tradesToday g) by (by vm_compute).
  split; [exact Hc|]. split; [exact Hp|].
  destruct (X10_cap_at_most_zero_never_trades ws g Hc Hp) as [Ht He].
  split; [|exact He]. rewrite Ht. reflexivity.
Defined.

(** ** The recorded day and the counter *)

Lemma lastDay_loop_body w g :
  lastDay (state_of (loop_body w g)) = getUTCDate (now w).
Proof.
  rewrite loop_body_state. case_match; cbn; apply lastDay_day_check.
Qed.

(** X11. After every iteration [lastDay] is the day of the month of the
    clock reading of that iteration: after a run, that of its last
    iteration, whatever the outcomes of the swaps were. *)
Theorem X11_lastDay_is_latest_reading :
  forall (ws : list IterWorld) (w : IterWorld) (g : Globals),
    lastDay (state_of (loop (ws ++ [w]) g)) = getUTCDate (now w).
Proof.
  intros ws w. induction ws as [|w' ws IH]; intros g.
  - cbn [app]. rewrite loop_cons_state. apply lastDay_loop_body.
  - rewrite <- app_comm_cons, loop_cons_state. apply IH.
Qed.

(** X12. When the day of the month read from the clock differs from the
    recorded one, the iteration starts from a counter of [0], whatever the
    counter was: unless [0] has reached the cap it calls [swapOnce], even
    if the limit had been reached before, and it leaves the counter at [1]
    if the swap is executed and at [0] otherwise. *)
Theorem X12_new_day_of_month_restarts_counter :
  forall (w : IterWorld) (g : Globals),
    getUTCDate (now w) <> lastDay g ->
    capped (day_check w g) = int_ge 0 (daily_cap (env g))
    /\ tradesToday (state_of (loop_body w g))
       = (if swap_executed w (trace_of (loop_body w g)) then 1 else 0)
    /\ (int_ge 0 (daily_cap (env g)) = false ->
        steps (trace_of (loop_body w g))
        = steps (trace_of (swapOnce (swap w) (day_check w g)))).
Proof.
  intros w g Hday. destruct (day_check_reset w g Hday) as [Hzero _].
  assert (Hc : capped (day_check w g) = int_ge 0 (daily_cap (env g))).
  { unfold capped. by rewrite Hzero, env_day_check. }
  split; [exact Hc|]. split.
  - rewrite loop_body_state. case_match; cbn; by rewrite ?Hzero.
  - intros H0. by rewrite loop_body_steps, Hc, H0.
Qed.

Lemma X12_new_day_of_month_restarts_counter_witness :
  let g := set_tradesToday 100 (sample_globals id) in
  let w := iteration_at 1705399300000 good_swap in
  getUTCDate (now w) <> lastDay g
  /\ capped g = true
  /\ tradesToday (state_of (loop_body w g)) = 1.
Proof.
  intros g w.
  assert (Hday : getUTCDate (now w) <> lastDay g) by (by vm_compute).
  split; [exact Hday|]. split; [reflexivity|].
  destruct (X12_new_day_of_month_restarts_counter w g Hday) as (_ & Ht & _).
  rewrite Ht. reflexivity.
Defined.

(** X13. The counter stays between [0] and the cap rounded up: for a
    finite cap whose rounding up is at most [2^53], a counter within these
    bounds is within them after any run, whatever the clock readings and
    the outcomes of the swaps (the bound is [0] for a negative cap). *)
Theorem X13_counter_within_cap :
  forall (ws : list IterWorld) (g : Globals) (m : Z) (k : N),
    daily_cap (env g) = Finite m k ->
    ceiling m k <= max_exact ->
    0 <= tradesToday g <= Z.max 0 (ceiling m k) ->
    0 <= tradesToday (state_of (loop ws g)) <= Z.max 0 (ceiling m k).
Proof.
  intros ws g m k Hcap Hsmall. revert g Hcap.
  induction ws as [|w ws IH]; intros g Hcap Hb; [exact Hb|].
  rewrite loop_cons_state. apply IH.
  - by rewrite (same_constants_env _ _ (same_constants_loop_body w g)).
  - assert (Hg : cap_is m k g) by (split; [exact Hcap|lia]).
    destruct (cap_is_loop_body m k Hsmall w g Hg) as [_ Hpos].
    split; [exact Hpos|].
    destruct (swap_executed w (trace_of (loop_body w g))) eqn:Hex.
    + destruct (executed_increments m k Hsmall w g Hg Hex) as [-> Hle]. lia.
    + rewrite loop_body_state, Hex.
      destruct (tradesToday_day_check w g) as [-> | ->]; lia.
Qed.

Lemma X13_counter_within_cap_witness :
  let g := sample_globals (<["DAILY_BUDGET_TRADES" := "2.5"]>) in
  let ws := [iteration_at 1705312900000 good_swap;
             iteration_at 1705314100000 good_swap;
             iteration_at 1705315300000 good_swap;
             iteration_at 1705316500000 good_swap;
             iteration_at 1705230000000 good_swap] in
  daily_cap (env g) = Finite 5 1
  /\ ceiling 5 1 <= max_exact
  /\ 0 <= tradesToday g <= Z.max 0 (ceiling 5 1)
  /\ 0 <= tradesToday (state_of (loop ws g)) <= 3.
Proof.
  intros g ws.
  assert (H1 : daily_cap (env g) = Finite 5 1) by reflexivity.
  assert (H2 : ceiling 5 1 <= max_exact) by (by vm_compute).
  assert (H3 : 0 <= tradesToday g <= Z.max 0 (ceiling 5 1))
    by (split; by vm_compute).
  split; [exact H1|]. split; [exact H2|]. split; [exact H3|].
  exact (X13_counter_within_cap ws g 5 1 H1 H2 H3).
Defined.
